(** * doc2md: the docstring-to-Markdown pipeline of [doc2md.py]

    A shallow embedding of the line-oriented core of [doc2md.py] (the
    indentation normaliser, the heading parser, the section extractor, the
    table-of-contents generator, the code-block classifier, the directive
    translator and the transformer) together with the properties its
    specification states about them.

    Conventions of the embedding:
    - a Python [str] is a [string] (a sequence of 8-bit characters); a line
      sequence is a [list string];
    - a Python [int] that holds a heading level is a [Z]; a count obtained
      from [len] is a [nat] and is injected with [Z.of_nat] where it becomes
      a level;
    - a function that can raise returns a [result]; the local variables of a
      loop are threaded explicitly (an accumulator or a state record). *)

From Stdlib Require Import String Ascii List ZArith Lia Bool.
Import ListNotations.

Local Open Scope string_scope.
Local Open Scope list_scope.

(** ** Python string primitives used by the program *)

Module Py.

(** [c.isspace()] on the characters that [str.lstrip()] removes: the ASCII
    white space of Python 3, that is TAB, LF, VT, FF, CR, the four
    separators FS, GS, RS, US and the space (no character above 127 is
    white space here). *)
Definition isspace (c : ascii) : bool :=
  let n := nat_of_ascii c in
  ((9 <=? n)%nat && (n <=? 13)%nat) || ((28 <=? n)%nat && (n <=? 31)%nat)
  || (n =? 32)%nat.

(** [s.lstrip()] *)
Fixpoint lstrip (s : string) : string :=
  match s with
  | String c rest => if isspace c then lstrip rest else s
  | EmptyString => EmptyString
  end.

(** [s.startswith(p)] *)
Definition startswith (p s : string) : bool := String.prefix p s.

(** [s[n:]] for a non-negative [n] *)
Fixpoint slice_from (n : nat) (s : string) : string :=
  match n, s with
  | O, _ => s
  | S _, EmptyString => EmptyString
  | S k, String _ rest => slice_from k rest
  end.

(** [s.partition(sep)] for a one-character separator: the text before the
    first [sep], the separator found (empty when there is none) and the text
    after it. *)
Fixpoint partition (sep : ascii) (s : string) : string * string * string :=
  match s with
  | EmptyString => (EmptyString, EmptyString, EmptyString)
  | String c rest =>
      if Ascii.eqb c sep then (EmptyString, String sep EmptyString, rest)
      else let '(before, found, after) := partition sep rest in
           (String c before, found, after)
  end.

(** [s * n]: a negative count gives the empty string, as [Z.to_nat] does. *)
Fixpoint repeat_nat (s : string) (n : nat) : string :=
  match n with
  | O => EmptyString
  | S k => (s ++ repeat_nat s k)%string
  end.

Definition repeat (s : string) (n : Z) : string := repeat_nat s (Z.to_nat n).

(** [sub in s] *)
Fixpoint contains (sub s : string) : bool :=
  String.prefix sub s ||
  match s with
  | EmptyString => false
  | String _ rest => contains sub rest
  end.

(** [s.replace(old, new)] for a non-empty [old]: a left-to-right scan that
    rewrites every non-overlapping occurrence.  [skip] counts the characters
    of an occurrence just rewritten that are still to be passed over. *)
Fixpoint replace_from (skip : nat) (old new s : string) : string :=
  match s with
  | EmptyString => EmptyString
  | String c rest =>
      match skip with
      | S k => replace_from k old new rest
      | O =>
          if String.prefix old s
          then (new ++ replace_from (String.length old - 1) old new rest)%string
          else String c (replace_from 0 old new rest)
      end
  end.

Definition replace (old new s : string) : string := replace_from 0 old new s.

(** [s.lower()] on 8-bit characters: the letters [A]..[Z] are mapped. *)
Definition lower_char (c : ascii) : ascii :=
  let n := nat_of_ascii c in
  if ((65 <=? n)%nat && (n <=? 90)%nat) then ascii_of_nat (n + 32) else c.

Fixpoint lower (s : string) : string :=
  match s with
  | EmptyString => EmptyString
  | String c rest => String (lower_char c) (lower rest)
  end.

(** [bool(s)]: a string is true when it is not empty. *)
Definition truthy (s : string) : bool :=
  match s with
  | EmptyString => false
  | String _ _ => true
  end.

(** [s.endswith(p)] *)
Definition endswith (p s : string) : bool :=
  (String.length p <=? String.length s)%nat
  && String.eqb (slice_from (String.length s - String.length p) s) p.

(** The one-character string ["\n"]. *)
Definition newline : string := String (ascii_of_nat 10) EmptyString.

(** [sep.join(parts)] *)
Fixpoint join (sep : string) (parts : list string) : string :=
  match parts with
  | [] => EmptyString
  | part :: rest =>
      match rest with
      | [] => part
      | _ :: _ => (part ++ sep ++ join sep rest)%string
      end
  end.

End Py.

(** ** Exceptions *)

(** The exceptions the modelled functions raise. *)
Inductive error : Type :=
| AssertionError                  (* [assert is_heading(line)] *)
| BiggerHeader                    (* [Exception("Shouldn't be a bigger header")] *)
| NotKnownType.                   (* [Exception("Not Known type ? ...")] *)

Inductive result (A : Type) : Type :=
| Ok (a : A)
| Raise (e : error).

Arguments Ok {A} a.
Arguments Raise {A} e.

Definition bind {A B : Type} (r : result A) (k : A -> result B) : result B :=
  match r with
  | Ok a => k a
  | Raise e => Raise e
  end.

Notation "x <- r ;; k" := (bind r (fun x => k))
  (at level 61, r at next level, right associativity).
Notation "' p <- r ;; k" := (bind r (fun x => let p := x in k))
  (at level 61, p pattern, r at next level, right associativity).

(** ** Heading parser *)

(** A heading is a pair (level, title). *)
Definition heading : Type := Z * string.

(** Skips the run of [#] and tests that a space follows it. *)
Fixpoint hashes_then_space (s : string) : bool :=
  match s with
  | String c rest =>
      if Ascii.eqb c "#" then hashes_then_space rest else Ascii.eqb c " "
  | EmptyString => false
  end.

(** [_reg_section.match(line)] with [_reg_section = re.compile('^#+ ')]: one
    [#] or more at the start of the line and then a space. *)
Definition is_heading (line : string) : bool :=
  match line with
  | String c rest => Ascii.eqb c "#" && hashes_then_space rest
  | EmptyString => false
  end.

Definition get_heading (line : string) : result heading :=
  if is_heading line then
    let '(before, _, after) := Py.partition " " line in
    Ok (Z.of_nat (String.length before), after)
  else Raise AssertionError.

Definition make_heading (level : Z) (title : string) : string :=
  (Py.repeat "#" (Z.max level 1) ++ " " ++ title)%string.

(** ** Indentation normaliser *)

(** [len(line) - len(line.lstrip())]: the number of leading white-space
    characters (the difference is never negative). *)
Definition indent_of (line : string) : nat :=
  String.length line - String.length (Py.lstrip line).

(** [min] of a non-empty sequence given by its first element and the rest. *)
Definition min_nat (first : nat) (rest : list nat) : nat :=
  fold_left Nat.min rest first.

Definition unindent (lines : list string) : list string :=
  match filter Py.truthy lines with
  | [] => lines                       (* [min()] raised [ValueError] *)
  | first :: rest =>
      let indent := min_nat (indent_of first) (map indent_of rest) in
      map (Py.slice_from indent) lines
  end.

(** ** Code-block classifier *)

Definition code_block (lines : list string) (language : string) : list string :=
  [("```" ++ language)%string] ++ lines ++ ["```"].

(** [line in ['>>>', '...']] *)
Definition is_bare_prompt (line : string) : bool :=
  existsb (String.eqb line) [">>>"; "..."].

(** The first loop of [doctest2md]: the value of [is_only_code] when the loop
    ends, by exhaustion or by [break]. *)
Fixpoint only_code_scan (lines : list string) : bool :=
  match lines with
  | [] => true
  | line :: rest =>
      if negb (Py.startswith ">>> " line)
         && negb (Py.startswith "... " line)
         && negb (is_bare_prompt line)
      then false
      else only_code_scan rest
  end.

(** The second loop of [doctest2md]: [lines.append(line[4:])]. *)
Fixpoint strip_prompts (acc orig : list string) : list string :=
  match orig with
  | [] => acc
  | line :: rest => strip_prompts (acc ++ [Py.slice_from 4 line]) rest
  end.

Definition doctest2md (lines : list string) : list string :=
  let lines := unindent lines in
  let is_only_code := only_code_scan lines in
  if is_only_code then strip_prompts [] lines else lines.

Definition doc_code_block (lines : list string) (language : string)
  : list string :=
  let lines := if String.eqb language "python" then doctest2md lines else lines in
  code_block lines language.

(** ** Section extractor *)

(** The loop of [find_sections], with [sections] as its accumulator. *)
Fixpoint find_sections_from (sections : list heading) (lines : list string)
  : result (list heading) :=
  match lines with
  | [] => Ok sections
  | line :: rest =>
      if is_heading line then
        if negb (Py.startswith "##" line) then Raise BiggerHeader
        else h <- get_heading line ;;
             find_sections_from (sections ++ [h]) rest
      else find_sections_from sections rest
  end.

Definition find_sections (lines : list string) : result (list heading) :=
  find_sections_from [] lines.

(** ** Table-of-contents generator *)

(** [min(n for n,t in sections)] for a non-empty [sections]. *)
Definition min_level_of (first : heading) (rest : list heading) : Z :=
  fold_left Z.min (map fst rest) (fst first).

(** The loop of [make_toc], with [refs] as its accumulator. *)
Fixpoint make_toc_from (outer : Z) (refs : list string) (sections : list heading)
  : list string :=
  match sections with
  | [] => refs
  | (ind, sec) :: rest =>
      let ref := Py.lower sec in
      let ref := Py.replace " " "-" ref in
      let ref := Py.replace "?" "" ref in
      make_toc_from outer
        (refs ++ [(Py.repeat "    " (ind - outer)
                   ++ "- [" ++ sec ++ "](#" ++ ref ++ ")")%string])
        rest
  end.

Definition make_toc (sections : list heading) : list string :=
  match sections with
  | [] => []
  | first :: rest => make_toc_from (min_level_of first rest) [] sections
  end.

(** ** Directive translator *)

Definition type_url : list (string * string) :=
  [ ("bool", "[bool](https://docs.python.org/2/library/stdtypes.html#boolean-values)");
    ("str", "[str](https://docs.python.org/2/library/stdtypes.html#sequence-types-str-unicode-list-tuple-bytearray-buffer-xrange)");
    ("int", "[int](https://docs.python.org/2/library/stdtypes.html#numeric-types-int-float-long-complex)");
    ("float", "[float](https://docs.python.org/2/library/stdtypes.html#numeric-types-int-float-long-complex)");
    ("list", "[list](https://docs.python.org/2/tutorial/datastructures.html#more-on-lists)");
    ("Exception", "[Exception](https://docs.python.org/2/tutorial/errors.html)") ].

(** The loop [for c_type, url in type_url: if c_type in line: line =
    line.replace(c_type, url)] over a table, threading [line]. *)
Fixpoint link_types_in (table : list (string * string)) (line : string)
  : string :=
  match table with
  | [] => line
  | (c_type, url) :: rest =>
      link_types_in rest
        (if Py.contains c_type line then Py.replace c_type url line else line)
  end.

Definition link_types (line : string) : string := link_types_in type_url line.

(** ** Line-oriented transformer *)

(** The local variables of [_doc2md].  [code] and [language] are unbound in
    the source until the first code trigger; they are read only under
    [is_code], that is after a trigger has bound them. *)
Record state : Type := mkState {
  md : list string;
  is_code : bool;
  code : list string;
  language : string
}.

Definition initial : state :=
  {| md := []; is_code := false; code := []; language := "" |}.

(** [md += out] *)
Definition emit (st : state) (out : list string) : state :=
  {| md := md st ++ out; is_code := is_code st;
     code := code st; language := language st |}.

(** [is_code = True; language = lang; code = [line]] *)
Definition open_block (st : state) (lang line : string) : state :=
  {| md := md st; is_code := true; code := [line]; language := lang |}.

(** One iteration of the loop of [_doc2md]. *)
Definition step (shiftlevel : Z) (st : state) (line : string) : result state :=
  let trimmed := Py.lstrip line in
  if is_code st then
    if Py.truthy line then
      Ok {| md := md st; is_code := true;
            code := code st ++ [line]; language := language st |}
    else
      Ok {| md := (md st ++ doc_code_block (code st) (language st)) ++ [line];
            is_code := false; code := code st; language := language st |}
  else if Py.startswith ">>> " trimmed then Ok (open_block st "python" line)
  else if Py.startswith "$ " trimmed then Ok (open_block st "bash" line)
  else if negb (shiftlevel =? 0)%Z && is_heading line then
    ' (level, title) <- get_heading line ;;
    Ok (emit st [make_heading (level + shiftlevel) title])
  else if Py.startswith ":param" trimmed then
    let line := Py.replace ":param" "-" line in
    let line := link_types line in
    Ok (emit st [Py.lstrip line])
  else if Py.startswith ":throw" trimmed then
    let line := Py.replace ":throw" "- throw" line in
    let line := link_types line in
    Ok (emit st [""; Py.lstrip line])
  else if Py.startswith ":return" trimmed then
    let line := Py.replace ":return" "- return" line in
    let line := link_types line in
    Ok (emit st [""; Py.lstrip line])
  else Ok (emit st [line]).

(** The loop of [_doc2md] from a given state. *)
Fixpoint run (shiftlevel : Z) (st : state) (lines : list string) : result state :=
  match lines with
  | [] => Ok st
  | line :: rest => st' <- step shiftlevel st line ;; run shiftlevel st' rest
  end.

(** The statements after the loop: flush an open block, append [""]. *)
Definition finish (st : state) : list string :=
  let md := if is_code st
            then md st ++ doc_code_block (code st) (language st)
            else md st in
  md ++ [""].

Definition _doc2md (lines : list string) (shiftlevel : Z) : result (list string) :=
  st <- run shiftlevel initial lines ;; Ok (finish st).

(** ** Entity renderer *)

(** What [inspect.isfunction], [inspect.isclass] and [inspect.ismethod] say
    about the documented entity. *)
Inductive kind : Type := Function | Class | Method | Other.

(** The heading-level block of [doc2md]: from the discovered sections and
    [min_level] to the values of [level], [shiftlevel] and [sections] after
    [if level < min_level: ...]. *)
Definition heading_shift (sections : list heading) (min_level : Z)
  : Z * Z * list heading :=
  let level := match sections with
               | [] => min_level
               | first :: rest => min_level_of first rest
               end in
  let shiftlevel := 0%Z in
  if (level <? min_level)%Z then
    let shiftlevel := (min_level - level)%Z in
    let level := min_level in
    (level, shiftlevel,
     map (fun '(lev, tit) => ((lev + shiftlevel)%Z, tit)) sections)
  else (level, shiftlevel, sections).

(** The loop [while len(lines) > 0 and not lines[0].lstrip().startswith(":"):
    md.append(lines.pop(0).lstrip())], returning [md] and what is left of
    [lines]. *)
Fixpoint pop_free_text (md lines : list string) : list string * list string :=
  match lines with
  | line :: rest =>
      if negb (Py.startswith ":" (Py.lstrip line))
      then pop_free_text (md ++ [Py.lstrip line]) rest
      else (md, lines)
  | [] => (md, lines)
  end.

(** [doc2md(module, title, min_level, more_info=True, toc)] from the point
    where the docstring has been trimmed and split.  The reflection calls
    stay outside: [k] is the kind of [module], [lines] is
    [doctrim(docstr).split('\n')] and [title] is the title as the branch for
    [k] recovers it from the source text of the entity. *)
Definition doc2md (k : kind) (lines : list string) (title : string)
    (min_level : Z) (toc : bool) : result (list string * list heading) :=
  sections <- find_sections lines ;;
  let '(level, shiftlevel, sections) := heading_shift sections min_level in
  level <- match k with
           | Function | Method => Ok level
           | Class => Ok (level + 1)%Z
           | Other => Raise NotKnownType
           end ;;
  let title := if Py.startswith "_" title then ("\" ++ title)%string else title in
  let md := [make_heading level title; ""] in
  let '(md, lines) := pop_free_text md lines in
  let md := md ++ [""] in
  let md := if toc then md ++ make_toc sections else md in
  body <- _doc2md lines shiftlevel ;;
  Ok (md ++ body, sections).

(** ** Rendering of classes and modules *)

(** A documented entity as the renderer sees it through [inspect]: its kind,
    the lines of its trimmed docstring ([doctrim(docstr).split('\n')]) and
    the title that [doc2md] recovers for it from its source text. *)
Record entity : Type := mkEntity {
  ent_kind : kind;
  ent_lines : list string;
  ent_title : string
}.

(** [doc2md(entity, name, min_level, more_info=True, toc=False)] *)
Definition render (e : entity) (min_level : Z)
  : result (list string * list heading) :=
  doc2md (ent_kind e) (ent_lines e) (ent_title e) min_level false.

(** [entry[0].startswith("__") and entry[0].endswith("__")] *)
Definition is_dunder (name : string) : bool :=
  Py.startswith "__" name && Py.endswith "__" name.

(** The loop of [class2md] over [sorted(inspect.getmembers(cls))], given as
    the list of (name, member) pairs in that order, with [md] and [sec] as
    its accumulators. *)
Fixpoint class2md_from (min_level : Z) (md : list string) (sec : list heading)
    (members : list (string * entity)) : result (list string * list heading) :=
  match members with
  | [] => Ok (md, sec)
  | (name, member) :: rest =>
      if is_dunder name then class2md_from min_level md sec rest
      else
        ' (c_md, c_sec) <- render member (min_level + 2) ;;
        class2md_from min_level (md ++ (c_md ++ [Py.newline])) (sec ++ c_sec) rest
  end.

(** [class2md(cls, title, min_level)]; [members] is
    [sorted(inspect.getmembers(cls))]. *)
Definition class2md (cls : entity) (members : list (string * entity))
    (min_level : Z) : result (list string * list heading) :=
  ' (md, sec) <- render cls min_level ;;
  class2md_from min_level md sec members.

(** An entry [module.__dict__[name]] for a [name] of [module.__md__]: a
    class ([inspect.isclass(entry)]) with its members, or another object
    with the truth value of its [__doc__]. *)
Inductive entry : Type :=
| ClassEntry (name : string) (cls : entity) (members : list (string * entity))
| OtherEntry (name : string) (has_doc : bool) (e : entity).

(** The four accumulators of the loop of [mod2md]. *)
Record api : Type := mkApi {
  api_md : list string;
  api_sec : list heading;
  class_md : list string;
  class_sec : list heading
}.

(** The loop [for name in module.__md__] of [mod2md]. *)
Fixpoint mod2md_from (level : Z) (acc : api) (entries : list entry)
  : result api :=
  match entries with
  | [] => Ok acc
  | ClassEntry name cls members :: rest =>
      ' (md, sec) <- class2md cls members level ;;
      mod2md_from level
        {| api_md := api_md acc; api_sec := api_sec acc;
           class_md := class_md acc ++ md; class_sec := class_sec acc ++ sec |}
        rest
  | OtherEntry name has_doc e :: rest =>
      if has_doc then
        let sec0 := api_sec acc ++ [((level + 2)%Z, name)] in
        let md0 := api_md acc ++ [""; ""] in
        ' (md, sec) <- render e (level + 2) ;;
        mod2md_from level
          {| api_md := md0 ++ md; api_sec := sec0 ++ sec;
             class_md := class_md acc; class_sec := class_sec acc |}
          rest
      else mod2md_from level acc rest
  end.

(** The list [md] that [mod2md(module, title, toc)] joins.  [first :: rest]
    is [doctrim(docstr).split('\n')] (a split is never empty) and [entries]
    are the objects that [module.__md__] names, in its order. *)
Definition mod2md_lines (first : string) (rest : list string)
    (entries : list entry) (title : string) (toc : bool)
  : result (list string) :=
  sections <- find_sections (first :: rest) ;;
  let level := match sections with
               | [] => 1%Z
               | s :: more => (min_level_of s more - 1)%Z
               end in
  let sections := match entries with
                  | [] => sections
                  | _ :: _ => sections ++ [((level + 1)%Z, "API")]
                  end in
  acc <- mod2md_from level
           {| api_md := []; api_sec := []; class_md := []; class_sec := [] |}
           entries ;;
  let sections := sections ++ api_sec acc in
  let md := [make_heading level title; ""; first; ""] in
  let md := if toc then md ++ make_toc sections else md in
  body <- _doc2md rest 0 ;;
  let md := md ++ body in
  let md := if (0 <? List.length (class_md acc))%nat
            then let md := md ++ [""; ""; make_heading level "Class"] in
                 let md := if toc then (md ++ [""]) ++ make_toc (class_sec acc)
                           else md in
                 md ++ class_md acc
            else md in
  let md := if (0 <? List.length (api_md acc))%nat
            then let md := md ++ [""; ""; make_heading level "Functions"] in
                 let md := if toc then (md ++ [""]) ++ make_toc (api_sec acc)
                           else md in
                 md ++ api_md acc
            else md in
  Ok md.

Definition mod2md (first : string) (rest : list string)
    (entries : list entry) (title : string) (toc : bool) : result string :=
  md <- mod2md_lines first rest entries title toc ;;
  Ok (Py.join Py.newline md).

(** ** Vocabulary of the specification *)

(** The definitions below are not taken from the source: they spell out the
    words of the specification, so that the statements can compare them with
    what the program computes. *)

(** Character-wise substitution: every [c] of [s] becomes [new]. *)
Fixpoint subst_char (c : ascii) (new s : string) : string :=
  match s with
  | EmptyString => EmptyString
  | String x rest =>
      ((if Ascii.eqb x c then new else String x EmptyString)
       ++ subst_char c new rest)%string
  end.

(** The anchor slug as the specification words it: lowercase the title,
    turn spaces into hyphens, drop the question marks. *)
Definition anchor_slug (title : string) : string :=
  subst_char "?" "" (subst_char " " "-" (Py.lower title)).

(** A table-of-contents item: four spaces per nesting unit below [outer],
    then the link from the title to its anchor. *)
Definition toc_item (outer : Z) (h : heading) : string :=
  (Py.repeat "    " (fst h - outer)
   ++ "- [" ++ snd h ++ "](#" ++ anchor_slug (snd h) ++ ")")%string.

(** A prompt-prefixed line of a transcript. *)
Definition prompt_line (line : string) : Prop :=
  Py.startswith ">>> " line = true \/ Py.startswith "... " line = true
  \/ line = ">>>" \/ line = "...".

(** A level-1 heading line: a heading line that does not start with [##]. *)
Definition level_one (line : string) : bool :=
  is_heading line && negb (Py.startswith "##" line).

(** The language of the code block that a line opens, if it opens one. *)
Definition trigger (line : string) : option string :=
  if Py.startswith ">>> " (Py.lstrip line) then Some "python"
  else if Py.startswith "$ " (Py.lstrip line) then Some "bash"
  else None.

(** The number of empty lines at the start of a line sequence, and at its
    end. *)
Fixpoint leading_empty (lines : list string) : nat :=
  match lines with
  | line :: rest => if Py.truthy line then 0 else S (leading_empty rest)
  | [] => 0
  end.

Definition trailing_empty (lines : list string) : nat :=
  leading_empty (rev lines).

(** A string with a character that is not white space. *)
Fixpoint has_ink (s : string) : bool :=
  match s with
  | EmptyString => false
  | String c rest => negb (Py.isspace c) || has_ink rest
  end.

(** Two states of the transformer that differ by lines [before] already
    emitted, and by the stale block variables when no block is open. *)
Definition framed (before : list string) (st st' : state) : Prop :=
  md st' = before ++ md st
  /\ is_code st' = is_code st
  /\ (is_code st = true -> code st' = code st /\ language st' = language st).

(** The characters of [p] are all different from the first character of
    [old]: no occurrence of [old] starts inside [p]. *)
Fixpoint clear_of (old p : string) : bool :=
  match old, p with
  | String d _, String c rest => negb (Ascii.eqb c d) && clear_of old rest
  | _, _ => true
  end.

(** Replacing the type names by their links, as one reads "the type names
    are replaced by documentation links": one pass from left to right in
    which a name found is replaced by its link (the first entry of the table
    that matches) and the pass goes on after the name; what has been inserted
    is not looked at again.  [skip] counts the characters of a name just
    replaced that are still to be passed over. *)
Fixpoint first_match (table : list (string * string)) (s : string)
  : option (string * string) :=
  match table with
  | [] => None
  | (name, url) :: rest =>
      if String.prefix name s then Some (name, url) else first_match rest s
  end.

Fixpoint link_pass (skip : nat) (table : list (string * string)) (s : string)
  : string :=
  match s with
  | EmptyString => EmptyString
  | String c rest =>
      match skip with
      | S k => link_pass k table rest
      | O =>
          match first_match table s with
          | Some (name, url) =>
              (url ++ link_pass (String.length name - 1) table rest)%string
          | None => String c (link_pass 0 table rest)
          end
      end
  end.

Definition link_names (line : string) : string := link_pass 0 type_url line.

(** Two strings of which one starts with the other. *)
Definition compatible (a b : string) : bool :=
  String.prefix a b || String.prefix b a.

(** Some non-empty end of [b] is compatible with [a]: an occurrence of [a]
    in a text can start inside an occurrence of [b] and stay inside it or
    run over its end. *)
Fixpoint clash (a b : string) : bool :=
  match b with
  | EmptyString => false
  | String _ rest => compatible a b || clash a rest
  end.

(** Replacing [name] by [url] does not disturb the search for [other]: no
    occurrence of [name] or of [url] starts inside one of [other] after its
    first character, and none of [other] starts inside [url]. *)
Definition apart (name url other : string) : bool :=
  match other with
  | EmptyString => false
  | String _ rest =>
      negb (clash name rest) && negb (clash url rest) && negb (clash other url)
  end.

(** A table in which every entry is apart from the entries after it. *)
Fixpoint links_apart (table : list (string * string)) : bool :=
  match table with
  | [] => true
  | (name, url) :: rest =>
      Py.truthy name
      && forallb (fun entry => apart name url (fst entry)) rest
      && links_apart rest
  end.

(** The entries of [type_url] whose links hold no name of a later entry:
    all but those of "str" and "int". *)
Definition sound_type_url : list (string * string) :=
  filter (fun entry => negb (String.eqb (fst entry) "str")
                       && negb (String.eqb (fst entry) "int")) type_url.

(** * Properties *)

(** ** Facts about the string primitives *)

Section StringFacts.

Lemma prefix_empty (s : string) : String.prefix "" s = true.
Proof. destruct s; reflexivity. Qed.

Lemma prefix_cons (c d : ascii) (p s : string) :
  String.prefix (String c p) (String d s)
  = if Ascii.eqb c d then String.prefix p s else false.
Proof.
  simpl. destruct (ascii_dec c d) as [e|n].
  - subst. now rewrite Ascii.eqb_refl.
  - apply Ascii.eqb_neq in n. now rewrite n.
Qed.

Lemma prefix_append (p s : string) :
  String.prefix p s = true -> s = (p ++ Py.slice_from (String.length p) s)%string.
Proof.
  revert s. induction p as [|c p IH]; intros s H.
  - reflexivity.
  - destruct s as [|d s]; [discriminate|].
    rewrite prefix_cons in H. destruct (Ascii.eqb c d) eqn:E; [|discriminate].
    apply Ascii.eqb_eq in E. subst d. simpl. f_equal. now apply IH.
Qed.

(** A heading line starts flush left. *)
Lemma lstrip_heading (line : string) :
  is_heading line = true -> Py.lstrip line = line.
Proof.
  destruct line as [|c rest]; [discriminate|]. simpl.
  destruct (Ascii.eqb c "#") eqn:E; [|discriminate].
  apply Ascii.eqb_eq in E. now subst c.
Qed.

Lemma heading_first_char (line : string) :
  is_heading line = true -> exists rest, line = String "#" rest.
Proof.
  destruct line as [|c rest]; [discriminate|]. simpl.
  destruct (Ascii.eqb c "#") eqn:E; [|discriminate].
  apply Ascii.eqb_eq in E. subst c. now exists rest.
Qed.

(** Replacing a one-character pattern acts character by character. *)
Lemma replace_char (c : ascii) (new s : string) :
  Py.replace (String c EmptyString) new s = subst_char c new s.
Proof.
  unfold Py.replace. induction s as [|x rest IH]; [reflexivity|].
  cbn [Py.replace_from subst_char]. rewrite prefix_cons, prefix_empty.
  rewrite (Ascii.eqb_sym c x). destruct (Ascii.eqb x c); simpl.
  - now rewrite IH.
  - now rewrite IH.
Qed.

End StringFacts.

(** ** Heading parser: round trip *)

Section Headings.

Lemma repeat_hash_succ (n : nat) :
  Py.repeat_nat "#" (S n) = String "#" (Py.repeat_nat "#" n).
Proof. reflexivity. Qed.

(** After the run of [#] of a heading, [partition] cuts at the space that
    ends the run: what it leaves before the cut is that run. *)
Lemma partition_hashes (rest : string) :
  hashes_then_space rest = true ->
  forall before found after,
    Py.partition " " rest = (before, found, after) ->
    rest = (Py.repeat_nat "#" (String.length before) ++ " " ++ after)%string.
Proof.
  induction rest as [|c rest IH]; intros H before found after P.
  - discriminate.
  - cbn [hashes_then_space] in H. cbn [Py.partition] in P.
    destruct (Ascii.eqb c "#") eqn:Eh.
    + apply Ascii.eqb_eq in Eh. subst c. cbn in P.
      destruct (Py.partition " " rest) as [[b f] a] eqn:Er.
      injection P as Hb Hf Ha. subst before found after.
      cbn [String.length]. rewrite repeat_hash_succ. cbn [append]. f_equal.
      exact (IH H b f a eq_refl).
    + apply Ascii.eqb_eq in H. subst c. cbn in P.
      injection P as Hb Hf Ha. subst before found after. reflexivity.
Qed.

(** What [get_heading] answers on a heading line, and that [make_heading]
    rebuilds the line from it. *)
Lemma get_heading_make_heading (line : string) :
  is_heading line = true ->
  exists level title,
    get_heading line = Ok (level, title)
    /\ (1 <= level)%Z
    /\ make_heading level title = line.
Proof.
  intros H. unfold get_heading. rewrite H.
  destruct line as [|c rest]; [discriminate|].
  cbn [is_heading] in H. apply andb_true_iff in H as [Hc Hr].
  apply Ascii.eqb_eq in Hc. subst c.
  cbn [Py.partition]. cbn [Ascii.eqb Bool.eqb].
  destruct (Py.partition " " rest) as [[b f] a] eqn:Er.
  exists (Z.of_nat (String.length (String "#" b))), a.
  split; [reflexivity|]. split; [cbn [String.length]; lia|].
  unfold make_heading, Py.repeat.
  rewrite Z.max_l by (cbn [String.length]; lia).
  rewrite Nat2Z.id. cbn [String.length]. rewrite repeat_hash_succ.
  cbn [append]. f_equal. symmetry. now apply (partition_hashes rest Hr b f a).
Qed.

Lemma partition_after_hashes (n : nat) (title : string) :
  Py.partition " " (Py.repeat_nat "#" n ++ String " " title)%string
  = (Py.repeat_nat "#" n, " ", title).
Proof.
  induction n as [|n IH]; [reflexivity|].
  rewrite repeat_hash_succ. cbn [append Py.partition Ascii.eqb Bool.eqb].
  now rewrite IH.
Qed.

Lemma length_repeat_hash (n : nat) : String.length (Py.repeat_nat "#" n) = n.
Proof. induction n as [|n IH]; [reflexivity|]. cbn. now rewrite IH. Qed.

Lemma hashes_then_space_repeat (n : nat) (title : string) :
  hashes_then_space (Py.repeat_nat "#" n ++ String " " title)%string = true.
Proof. induction n as [|n IH]; [reflexivity | exact IH]. Qed.

(** [make_heading] builds a heading line that parses back to its
    arguments. *)
Lemma get_heading_of_make_heading (level : Z) (title : string) :
  (1 <= level)%Z ->
  get_heading (make_heading level title) = Ok (level, title).
Proof.
  intros L. unfold make_heading, Py.repeat. rewrite Z.max_l by lia.
  change (" " ++ title)%string with (String " " title).
  assert (E : Z.of_nat (Z.to_nat level) = level) by lia.
  destruct (Z.to_nat level) as [|n]; [lia|].
  unfold get_heading.
  assert (H : is_heading (Py.repeat_nat "#" (S n) ++ String " " title)%string = true).
  { rewrite repeat_hash_succ. cbn [append is_heading Ascii.eqb Bool.eqb andb].
    apply hashes_then_space_repeat. }
  rewrite H, partition_after_hashes, length_repeat_hash, E. reflexivity.
Qed.

(** [is_heading] holds of the lines that match [^#+ ]: a run of at least
    one [#], a space, and any text. *)
Lemma is_heading_shape (line : string) :
  is_heading line = true
  <-> exists n title,
      line = (Py.repeat_nat "#" (S n) ++ String " " title)%string.
Proof.
  split.
  - intros H. destruct line as [|c rest]; [discriminate|].
    cbn [is_heading] in H. apply andb_true_iff in H as [Hc Hr].
    apply Ascii.eqb_eq in Hc. subst c.
    destruct (Py.partition " " rest) as [[b f] a] eqn:Er.
    exists (String.length b), a. rewrite repeat_hash_succ. cbn [append]. f_equal.
    exact (partition_hashes rest Hr b f a Er).
  - intros (n & title & ->). rewrite repeat_hash_succ.
    cbn [append is_heading Ascii.eqb Bool.eqb andb].
    apply hashes_then_space_repeat.
Qed.

(** The levels that [get_heading] returns are positive. *)
Lemma get_heading_level (line : string) (level : Z) (title : string) :
  get_heading line = Ok (level, title) -> (1 <= level)%Z.
Proof.
  intros G. destruct (is_heading line) eqn:H.
  - destruct (get_heading_make_heading line H) as (l & t & G' & L & _).
    rewrite G in G'. now injection G' as -> ->.
  - unfold get_heading in G. rewrite H in G. discriminate.
Qed.

End Headings.

(** C9. Heading round trip: for every line that matches [^#+ ], that is for
    every line on which [is_heading] holds, [get_heading] returns a pair
    (level, title) and [make_heading level title] is the line itself. *)
Theorem heading_round_trip (line : string) :
  is_heading line = true ->
  exists level title,
    get_heading line = Ok (level, title) /\ make_heading level title = line.
Proof.
  intros H. destruct (get_heading_make_heading line H) as (l & t & G & _ & M).
  now exists l, t.
Qed.

Lemma heading_round_trip_witness :
  is_heading "### What now?" = true
  /\ exists level title,
       get_heading "### What now?" = Ok (level, title)
       /\ make_heading level title = "### What now?".
Proof.
  split; [reflexivity | apply (heading_round_trip "### What now?"); reflexivity].
Defined.

(** ** Section extractor *)

Section Sections.

Lemma find_sections_from_spec (lines : list string) :
  forall acc,
    if existsb level_one lines
    then find_sections_from acc lines = Raise BiggerHeader
    else exists secs,
        find_sections_from acc lines = Ok (acc ++ secs)
        /\ map Ok secs = map get_heading (filter is_heading lines).
Proof.
  induction lines as [|line rest IH]; intros acc.
  - cbn. exists []. now rewrite app_nil_r.
  - cbn [existsb find_sections_from filter]. unfold level_one at 1.
    destruct (is_heading line) eqn:Hh; cbn [andb orb].
    + destruct (Py.startswith "##" line) eqn:Hs; cbn [negb orb].
      * destruct (get_heading_make_heading line Hh) as (l & t & G & _ & _).
        rewrite G. cbn [bind]. specialize (IH (acc ++ [(l, t)])).
        destruct (existsb level_one rest); [exact IH|].
        destruct IH as (secs & E & M). exists ((l, t) :: secs). split.
        -- rewrite <- app_assoc in E. exact E.
        -- cbn [map]. now rewrite G, M.
      * reflexivity.
    + apply IH.
Qed.

(** A heading line fails the [##] test exactly when its level is 1. *)
Lemma level_one_level (line : string) :
  is_heading line = true ->
  (Py.startswith "##" line = false
   <-> exists title, get_heading line = Ok (1%Z, title)).
Proof.
  intros H. unfold get_heading. rewrite H.
  destruct line as [|c rest]; [discriminate|].
  cbn [is_heading] in H. apply andb_true_iff in H as [Hc Hr].
  apply Ascii.eqb_eq in Hc. subst c.
  destruct rest as [|d rest]; [discriminate|].
  cbn [hashes_then_space] in Hr. unfold Py.startswith.
  rewrite !prefix_cons, prefix_empty. cbn [Ascii.eqb Bool.eqb Py.partition].
  destruct (Ascii.eqb d "#") eqn:Ed.
  - apply Ascii.eqb_eq in Ed. subst d. cbn [Ascii.eqb Bool.eqb].
    destruct (Py.partition " " rest) as [[b f] a]. split; [discriminate|].
    intros [t E]. injection E as E _. cbn [String.length] in E. lia.
  - apply Ascii.eqb_eq in Hr. subst d. cbn. split; [|reflexivity].
    intros _. now exists rest.
Qed.

End Sections.

(** C6. Section extraction: [find_sections] raises (the error "Shouldn't be
    a bigger header") if and only if some heading line of the input is a
    level-1 heading, that is a heading line that does not start with [##];
    otherwise it returns the (level, title) pairs that [get_heading] gives
    for exactly the heading lines of the input, in document order. *)
Theorem find_sections_spec (lines : list string) :
  ((exists line, In line lines /\ level_one line = true)
   -> find_sections lines = Raise BiggerHeader)
  /\ (~ (exists line, In line lines /\ level_one line = true)
      -> exists secs,
          find_sections lines = Ok secs
          /\ map Ok secs = map get_heading (filter is_heading lines))
  /\ (forall line,
        is_heading line = true ->
        (level_one line = true
         <-> exists title, get_heading line = Ok (1%Z, title))).
Proof.
  pose proof (find_sections_from_spec lines []) as S.
  unfold find_sections. repeat split.
  - intros E. apply existsb_exists in E. now rewrite E in S.
  - intros N. destruct (existsb level_one lines) eqn:E.
    + exfalso. apply N. now apply existsb_exists.
    + exact S.
  - intros L. unfold level_one in L. rewrite H in L. cbn in L.
    apply negb_true_iff in L. now apply level_one_level.
  - intros T. unfold level_one. rewrite H. cbn. apply negb_true_iff.
    now apply level_one_level.
Qed.

Lemma find_sections_spec_witness :
  find_sections ["Intro"; "## Usage"; "# Title"; "### More"] = Raise BiggerHeader
  /\ (exists secs,
         find_sections ["Intro"; "## Usage"; "text"; "### More"] = Ok secs
         /\ map Ok secs
            = map get_heading
                (filter is_heading ["Intro"; "## Usage"; "text"; "### More"])).
Proof.
  split.
  - apply (proj1 (find_sections_spec ["Intro"; "## Usage"; "# Title"; "### More"])).
    exists "# Title". split; [simpl; tauto | reflexivity].
  - apply (proj1 (proj2 (find_sections_spec
                           ["Intro"; "## Usage"; "text"; "### More"]))).
    intros (line & I & L). simpl in I.
    destruct I as [<-|[<-|[<-|[<-|[]]]]]; discriminate.
Defined.

(** ** Table of contents *)

Section Toc.

Lemma fold_min_le (l : list Z) :
  forall a, (fold_left Z.min l a <= a)%Z
            /\ forall x, In x l -> (fold_left Z.min l a <= x)%Z.
Proof.
  induction l as [|y l IH]; intros a; cbn [fold_left].
  - split; [lia | intros x []].
  - destruct (IH (Z.min a y)) as [Ha Hl]. split; [lia|].
    intros x [<-|I]; [lia | now apply Hl].
Qed.

Lemma fold_min_in (l : list Z) :
  forall a, fold_left Z.min l a = a \/ In (fold_left Z.min l a) l.
Proof.
  induction l as [|y l IH]; intros a; cbn [fold_left].
  - now left.
  - destruct (IH (Z.min a y)) as [E|I].
    + rewrite E. destruct (Z.min_spec a y) as [[_ M]|[_ M]]; rewrite M.
      * now left.
      * right. now left.
    + right. now right.
Qed.

(** [outer] is the least level of the section list. *)
Lemma min_level_of_least (first : heading) (rest : list heading) :
  (forall h, In h (first :: rest) -> (min_level_of first rest <= fst h)%Z)
  /\ exists h, In h (first :: rest) /\ fst h = min_level_of first rest.
Proof.
  unfold min_level_of.
  destruct (fold_min_le (map fst rest) (fst first)) as [Ha Hl]. split.
  - intros h [<-|I]; [exact Ha|]. apply Hl. now apply in_map.
  - destruct (fold_min_in (map fst rest) (fst first)) as [E|I].
    + exists first. split; [now left | now rewrite E].
    + apply in_map_iff in I as (h & E & I). exists h. split; [now right | exact E].
Qed.

(** The two [replace] calls of [make_toc] compute the anchor slug. *)
Lemma anchor_slug_replace (sec : string) :
  Py.replace "?" "" (Py.replace " " "-" (Py.lower sec)) = anchor_slug sec.
Proof. unfold anchor_slug. now rewrite !replace_char. Qed.

Lemma make_toc_from_map (outer : Z) (sections : list heading) :
  forall refs,
    make_toc_from outer refs sections = refs ++ map (toc_item outer) sections.
Proof.
  induction sections as [|[ind sec] rest IH]; intros refs; cbn [make_toc_from map].
  - now rewrite app_nil_r.
  - rewrite IH, <- app_assoc. cbn [app]. unfold toc_item at 2. cbn [fst snd].
    now rewrite anchor_slug_replace.
Qed.

End Toc.

(** C5. TOC generation: [make_toc] of the empty section list is empty; of a
    non-empty list it is one item per section, in the order of the list,
    each indented by (level - outer) units of four spaces, where [outer] is
    the least level of the list, and linking the title to its anchor slug
    (the title in lower case, spaces turned into hyphens, question marks
    removed).  The title "What now?" has the anchor "what-now". *)
Theorem make_toc_spec :
  make_toc [] = []
  /\ (forall first rest,
        let sections := first :: rest in
        let outer := min_level_of first rest in
        make_toc sections = map (toc_item outer) sections
        /\ List.length (make_toc sections) = List.length sections
        /\ (forall h, In h sections -> (outer <= fst h)%Z)
        /\ (exists h, In h sections /\ fst h = outer))
  /\ anchor_slug "What now?" = "what-now"
  /\ make_toc [(2%Z, "What now?"); (3%Z, "Then what"); (2%Z, "End")]
     = ["- [What now?](#what-now)"; "    - [Then what](#then-what)";
        "- [End](#end)"].
Proof.
  split; [reflexivity|]. split; [|split; reflexivity].
  intros first rest sections outer.
  assert (E : make_toc sections = map (toc_item outer) sections).
  { unfold make_toc, sections, outer. now rewrite make_toc_from_map. }
  split; [exact E|]. split; [now rewrite E, length_map|].
  apply min_level_of_least.
Qed.

(** ** Code-block classifier *)

Section Classifier.

Lemma is_bare_prompt_iff (line : string) :
  is_bare_prompt line = true <-> line = ">>>" \/ line = "...".
Proof.
  unfold is_bare_prompt. cbn [existsb]. rewrite orb_false_r, orb_true_iff.
  now rewrite !String.eqb_eq.
Qed.

(** The scan of [doctest2md] answers whether every line is prompt-prefixed. *)
Lemma only_code_scan_iff (lines : list string) :
  only_code_scan lines = true <-> forall line, In line lines -> prompt_line line.
Proof.
  induction lines as [|line rest IH]; cbn [only_code_scan].
  - split; [intros _ l [] | reflexivity].
  - destruct (Py.startswith ">>> " line) eqn:E1;
      [|destruct (Py.startswith "... " line) eqn:E2;
        [|destruct (is_bare_prompt line) eqn:E3]]; cbn [negb andb].
    1-3: rewrite IH; split;
      [ intros H l [<-|I]; [unfold prompt_line; rewrite ?E1, ?E2;
                            try apply is_bare_prompt_iff in E3; tauto
                           | now apply H]
      | intros H l I; apply H; now right ].
    split; [discriminate|]. intros H.
    destruct (H line (or_introl eq_refl)) as [P|[P|P]].
    + congruence.
    + congruence.
    + apply is_bare_prompt_iff in P. congruence.
Qed.

Lemma strip_prompts_map (orig : list string) :
  forall acc, strip_prompts acc orig = acc ++ map (Py.slice_from 4) orig.
Proof.
  induction orig as [|line rest IH]; intros acc; cbn [strip_prompts map].
  - now rewrite app_nil_r.
  - now rewrite IH, <- app_assoc.
Qed.

Lemma doctest2md_pure (lines : list string) :
  (forall line, In line (unindent lines) -> prompt_line line) ->
  doctest2md lines = map (Py.slice_from 4) (unindent lines).
Proof.
  intros H. apply only_code_scan_iff in H. unfold doctest2md.
  now rewrite H, strip_prompts_map.
Qed.

Lemma doctest2md_mixed (lines : list string) :
  ~ (forall line, In line (unindent lines) -> prompt_line line) ->
  doctest2md lines = unindent lines.
Proof.
  intros H. unfold doctest2md.
  destruct (only_code_scan (unindent lines)) eqn:E; [|reflexivity].
  exfalso. apply H. now apply only_code_scan_iff.
Qed.

(** The fences of a block. *)
Lemma doc_code_block_fences (lines : list string) (lang : string) :
  doc_code_block lines lang
  = [("```" ++ lang)%string]
      ++ (if String.eqb lang "python" then doctest2md lines else lines)
      ++ ["```"].
Proof. reflexivity. Qed.

End Classifier.

(** C1. Transcript classification: for a block handed to [doc_code_block]
    with the language "python", if after the indentation normalisation every
    line starts with ">>> " or "... " or is exactly ">>>" or "...", the block
    is fenced with the first four characters of every line removed (the
    prompt, on a line that starts with ">>> " or "... "); otherwise the
    normalised block is fenced as it is, prompts and output lines included.  The lines ">>> x = 1", ">>> x", "1" are fenced unchanged, and
    ">>> x = 1", ">>> y = 2" are fenced as "x = 1", "y = 2". *)
Theorem doc_code_block_python :
  (forall lines,
      let block := unindent lines in
      ((forall line, In line block -> prompt_line line) ->
       doc_code_block lines "python"
       = ["```python"] ++ map (Py.slice_from 4) block ++ ["```"])
      /\ (~ (forall line, In line block -> prompt_line line) ->
          doc_code_block lines "python" = ["```python"] ++ block ++ ["```"]))
  /\ (forall line,
        (Py.startswith ">>> " line = true
         -> line = (">>> " ++ Py.slice_from 4 line)%string)
        /\ (Py.startswith "... " line = true
            -> line = ("... " ++ Py.slice_from 4 line)%string))
  /\ doc_code_block [">>> x = 1"; ">>> x"; "1"] "python"
     = ["```python"; ">>> x = 1"; ">>> x"; "1"; "```"]
  /\ doc_code_block [">>> x = 1"; ">>> y = 2"] "python"
     = ["```python"; "x = 1"; "y = 2"; "```"].
Proof.
  split; [|split; [|split; reflexivity]].
  2: { intros line. split; intros H.
       - exact (prefix_append ">>> " line H).
       - exact (prefix_append "... " line H). }
  intros lines block. rewrite doc_code_block_fences. cbn [String.eqb].
  change (String.eqb "python" "python") with true. cbv iota.
  split; intros H.
  - now rewrite doctest2md_pure.
  - now rewrite doctest2md_mixed.
Qed.

Lemma doc_code_block_python_witness :
  doc_code_block ["  >>> x = 1"; "  ... + 2"] "python"
  = ["```python"] ++ map (Py.slice_from 4) [">>> x = 1"; "... + 2"] ++ ["```"]
  /\ doc_code_block ["  >>> x"; "  1"] "python"
     = ["```python"] ++ [">>> x"; "1"] ++ ["```"].
Proof.
  split.
  - apply (proj1 (proj1 doc_code_block_python ["  >>> x = 1"; "  ... + 2"])).
    intros line I. simpl in I. unfold prompt_line.
    destruct I as [<-|[<-|[]]]; [left | right; left]; reflexivity.
  - apply (proj2 (proj1 doc_code_block_python ["  >>> x"; "  1"])).
    intros H. specialize (H "1"). simpl in H.
    destruct H as [H|[H|[H|H]]]; [tauto | discriminate ..].
Defined.

(** C10. Bare prompt markers in pure code: when a transcript block is
    classified as pure code, a line that is exactly ">>>" or "..." (three
    characters) loses its first four characters like every other line, which
    leaves the empty string: such a separator is an empty line of the fenced
    code. *)
Theorem bare_prompt_becomes_empty (lines : list string) :
  (forall line, In line (unindent lines) -> prompt_line line) ->
  doc_code_block lines "python" = ["```python"] ++ doctest2md lines ++ ["```"]
  /\ List.length (doctest2md lines) = List.length lines
  /\ forall i line,
      nth_error (unindent lines) i = Some line ->
      (line = ">>>" \/ line = "...") ->
      nth_error (doctest2md lines) i = Some (Py.slice_from 4 line)
      /\ Py.slice_from 4 line = "".
Proof.
  intros H. split; [reflexivity|]. rewrite (doctest2md_pure lines H). split.
  - rewrite length_map. unfold unindent.
    destruct (filter Py.truthy lines); [reflexivity | apply length_map].
  - intros i line N B. split.
    + now rewrite nth_error_map, N.
    + destruct B as [->| ->]; reflexivity.
Qed.

Lemma bare_prompt_becomes_empty_witness :
  doc_code_block [">>> x = 1"; ">>>"; ">>> y = 2"; "..."] "python"
  = ["```python"; "x = 1"; ""; "y = 2"; ""; "```"].
Proof.
  refine (proj1 (bare_prompt_becomes_empty
                   [">>> x = 1"; ">>>"; ">>> y = 2"; "..."] _)).
  intros line I. simpl in I. unfold prompt_line.
  destruct I as [<-|[<-|[<-|[<-|[]]]]];
    [ left | right; right; left | left | right; right; right ]; reflexivity.
Defined.

(** ** Transformer: the loop *)

Section Loop.

Variable shiftlevel : Z.

Lemma run_app (a b : list string) :
  forall st,
    run shiftlevel st (a ++ b)
    = (st' <- run shiftlevel st a ;; run shiftlevel st' b).
Proof.
  induction a as [|line a IH]; intros st; cbn [app run].
  - reflexivity.
  - destruct (step shiftlevel st line) as [st'|e]; cbn [bind]; [apply IH | reflexivity].
Qed.

(** No iteration raises: [get_heading] is called on heading lines only. *)
Lemma step_total (st : state) (line : string) :
  exists st', step shiftlevel st line = Ok st'.
Proof.
  unfold step.
  destruct (is_code st); [destruct (Py.truthy line); eauto|].
  destruct (Py.startswith ">>> " (Py.lstrip line)); [eauto|].
  destruct (Py.startswith "$ " (Py.lstrip line)); [eauto|].
  destruct (negb (shiftlevel =? 0)%Z); cbn [andb].
  - destruct (is_heading line) eqn:H.
    + destruct (get_heading_make_heading line H) as (l & t & G & _).
      rewrite G. cbn [bind]. eauto.
    + destruct (Py.startswith ":param" (Py.lstrip line)); [eauto|].
      destruct (Py.startswith ":throw" (Py.lstrip line)); [eauto|].
      destruct (Py.startswith ":return" (Py.lstrip line)); eauto.
  - destruct (Py.startswith ":param" (Py.lstrip line)); [eauto|].
    destruct (Py.startswith ":throw" (Py.lstrip line)); [eauto|].
    destruct (Py.startswith ":return" (Py.lstrip line)); eauto.
Qed.

Lemma run_total (lines : list string) :
  forall st, exists st', run shiftlevel st lines = Ok st'.
Proof.
  induction lines as [|line rest IH]; intros st; cbn [run].
  - eauto.
  - destruct (step_total st line) as [st1 E]. rewrite E. cbn [bind]. apply IH.
Qed.

(** Inside a block, non-empty lines are accumulated and nothing is emitted. *)
Lemma run_accumulate (rest : list string) :
  forall st,
    is_code st = true ->
    Forall (fun line => Py.truthy line = true) rest ->
    run shiftlevel st rest
    = Ok {| md := md st; is_code := true;
            code := code st ++ rest; language := language st |}.
Proof.
  induction rest as [|line rest IH]; intros st C F; cbn [run].
  - rewrite app_nil_r. destruct st. cbn in C. now subst.
  - inversion F as [|? ? T F']; subst. unfold step. rewrite C, T. cbn [bind].
    rewrite IH by (reflexivity || assumption). cbn [md code language].
    now rewrite <- app_assoc.
Qed.

(** A line that opens a code block, met outside a block. *)
Lemma step_trigger (st : state) (line lang : string) :
  is_code st = false ->
  trigger line = Some lang ->
  step shiftlevel st line = Ok (open_block st lang line).
Proof.
  intros C T. unfold trigger in T. unfold step. rewrite C.
  destruct (Py.startswith ">>> " (Py.lstrip line)).
  - now injection T as <-.
  - destruct (Py.startswith "$ " (Py.lstrip line)); [|discriminate].
    now injection T as <-.
Qed.

(** A heading line opens no block. *)
Lemma heading_not_trigger (line : string) :
  is_heading line = true ->
  Py.startswith ">>> " (Py.lstrip line) = false
  /\ Py.startswith "$ " (Py.lstrip line) = false
  /\ Py.startswith ":param" (Py.lstrip line) = false
  /\ Py.startswith ":throw" (Py.lstrip line) = false
  /\ Py.startswith ":return" (Py.lstrip line) = false.
Proof.
  intros H. rewrite (lstrip_heading line H).
  destruct (heading_first_char line H) as [rest ->].
  unfold Py.startswith. now rewrite !prefix_cons.
Qed.

(** A line whose stripped text starts with a colon is neither a trigger nor
    a heading. *)
Lemma colon_not_trigger (line marker : string) :
  Py.startswith (String ":" marker) (Py.lstrip line) = true ->
  Py.startswith ">>> " (Py.lstrip line) = false
  /\ Py.startswith "$ " (Py.lstrip line) = false
  /\ is_heading line = false.
Proof.
  intros H. unfold Py.startswith in *.
  destruct (is_heading line) eqn:Hh.
  - exfalso. rewrite (lstrip_heading line Hh) in H.
    destruct (heading_first_char line Hh) as [rest ->].
    rewrite prefix_cons in H. discriminate.
  - destruct (Py.lstrip line) as [|c s]; [discriminate|].
    rewrite prefix_cons in H. destruct (Ascii.eqb ":" c) eqn:E; [|discriminate].
    apply Ascii.eqb_eq in E. subst c. now rewrite !prefix_cons.
Qed.

End Loop.

(** ** Transformer: directives and headings outside a block *)

Section Normal.

Variable shiftlevel : Z.
Variable st : state.
Hypothesis normal : is_code st = false.

(** Two markers that differ in their second character exclude each other. *)
Lemma marker_excludes (a b b' : ascii) (p q t : string) :
  b' <> b ->
  Py.startswith (String a (String b p)) t = true ->
  Py.startswith (String a (String b' q)) t = false.
Proof.
  intros N H. unfold Py.startswith in *.
  destruct t as [|c0 [|c1 t]]; [reflexivity | |].
  - rewrite prefix_cons. destruct (Ascii.eqb a c0); reflexivity.
  - rewrite !prefix_cons in *. destruct (Ascii.eqb a c0); [|reflexivity].
    destruct (Ascii.eqb b c1) eqn:E; [|discriminate].
    apply Ascii.eqb_eq in E. subst c1.
    apply Ascii.eqb_neq in N. now rewrite N.
Qed.

Lemma step_param (line : string) :
  Py.startswith ":param" (Py.lstrip line) = true ->
  step shiftlevel st line
  = Ok (emit st [Py.lstrip (link_types (Py.replace ":param" "-" line))]).
Proof.
  intros P. destruct (colon_not_trigger line _ P) as (A & B & H).
  unfold step. now rewrite normal, A, B, H, andb_false_r, P.
Qed.

(** The throw and return directives: an empty line, then the bullet. *)
Lemma step_throw (line : string) :
  Py.startswith ":throw" (Py.lstrip line) = true ->
  step shiftlevel st line
  = Ok (emit st [""; Py.lstrip (link_types (Py.replace ":throw" "- throw" line))]).
Proof.
  intros P. destruct (colon_not_trigger line _ P) as (A & B & H).
  assert (Q : Py.startswith ":param" (Py.lstrip line) = false)
    by (apply (marker_excludes ":" "t" "p" _ _ _ ltac:(discriminate) P)).
  unfold step. now rewrite normal, A, B, H, andb_false_r, Q, P.
Qed.

Lemma step_return (line : string) :
  Py.startswith ":return" (Py.lstrip line) = true ->
  step shiftlevel st line
  = Ok (emit st [""; Py.lstrip (link_types (Py.replace ":return" "- return" line))]).
Proof.
  intros P. destruct (colon_not_trigger line _ P) as (A & B & H).
  assert (Q : Py.startswith ":param" (Py.lstrip line) = false)
    by (apply (marker_excludes ":" "r" "p" _ _ _ ltac:(discriminate) P)).
  assert (T : Py.startswith ":throw" (Py.lstrip line) = false)
    by (apply (marker_excludes ":" "r" "t" _ _ _ ltac:(discriminate) P)).
  unfold step. now rewrite normal, A, B, H, andb_false_r, Q, T, P.
Qed.

(** With a shift, a heading line is re-emitted at the shifted level. *)
Lemma step_heading_shifted (line : string) (level : Z) (title : string) :
  shiftlevel <> 0%Z ->
  get_heading line = Ok (level, title) ->
  step shiftlevel st line
  = Ok (emit st [make_heading (level + shiftlevel) title]).
Proof.
  intros S G.
  assert (H : is_heading line = true).
  { unfold get_heading in G. destruct (is_heading line); [reflexivity | discriminate]. }
  destruct (heading_not_trigger line H) as (A & B & _).
  apply Z.eqb_neq in S.
  unfold step. rewrite normal, A, B, S, H, G. reflexivity.
Qed.

(** Without a shift, a heading line is emitted as it is. *)
Lemma step_heading_unshifted (line : string) :
  shiftlevel = 0%Z ->
  is_heading line = true ->
  step shiftlevel st line = Ok (emit st [line]).
Proof.
  intros S H. destruct (heading_not_trigger line H) as (A & B & P & T & R).
  unfold step. rewrite normal, A, B, S, P, T, R. reflexivity.
Qed.

End Normal.

(** ** Directive translation *)

(** C2, as the specification words its example: the output line for
    ":param x: a bool value" is not "- param x: a [bool](...) value". *)
Lemma param_directive_drops_keyword :
  _doc2md [":param x: a bool value"] 0
  = Ok ["- x: a [bool](https://docs.python.org/2/library/stdtypes.html#boolean-values) value";
        ""]
  /\ _doc2md [":param x: a bool value"] 0
     <> Ok ["- param x: a [bool](https://docs.python.org/2/library/stdtypes.html#boolean-values) value";
            ""].
Proof. split; [reflexivity | discriminate]. Qed.

(** C3, at the line ":return: an int": two lines are emitted, an empty one
    and the bullet, but the bullet does not carry the link of "int" intact.
    The table is applied entry after entry to the same line, and the address
    of the "int" link contains the name "float": the entry for "float"
    rewrites the inside of the link just inserted. *)
Theorem return_int_link_nested :
  _doc2md [":return: an int"] 0
  = Ok [""; ("- return: an "
             ++ "[int](https://docs.python.org/2/library/stdtypes.html#numeric-types-int-"
             ++ "[float](https://docs.python.org/2/library/stdtypes.html#numeric-types-int-float-long-complex)"
             ++ "-long-complex)")%string;
        ""]
  /\ _doc2md [":return: an int"] 0
     <> Ok [""; ("- return: an "
                 ++ "[int](https://docs.python.org/2/library/stdtypes.html#numeric-types-int-float-long-complex)")%string;
            ""].
Proof. split; [reflexivity | discriminate]. Qed.

(** ** Heading shift *)

Section HeadingInBlock.

Lemma fold_min_zero (l : list nat) :
  forall a, a = 0 \/ In 0 l -> fold_left Nat.min l a = 0.
Proof.
  induction l as [|x l IH]; intros a H; cbn [fold_left].
  - destruct H as [H|[]]. exact H.
  - apply IH. destruct H as [->|[->|I]].
    + now left.
    + left. apply Nat.min_0_r.
    + now right.
Qed.

Lemma map_slice_from_zero (lines : list string) :
  map (Py.slice_from 0) lines = lines.
Proof.
  induction lines as [|l lines IH]; [reflexivity|].
  cbn [map]. rewrite IH. reflexivity.
Qed.

(** A block with a non-empty line that starts flush left has no common
    indentation to remove. *)
Lemma unindent_flush_left (lines : list string) (line : string) :
  In line lines ->
  Py.truthy line = true ->
  indent_of line = 0 ->
  unindent lines = lines.
Proof.
  intros I T Z. unfold unindent.
  assert (F : In line (filter Py.truthy lines)) by (apply filter_In; now split).
  destruct (filter Py.truthy lines) as [|first rest]; [reflexivity|].
  unfold min_nat. rewrite fold_min_zero; [apply map_slice_from_zero|].
  destruct F as [->|F]; [now left | right].
  rewrite <- Z. now apply in_map.
Qed.

Lemma heading_flush_left (line : string) :
  is_heading line = true -> Py.truthy line = true /\ indent_of line = 0.
Proof.
  intros H. unfold indent_of. rewrite (lstrip_heading line H).
  destruct (heading_first_char line H) as [rest ->]. split; [reflexivity | lia].
Qed.

Lemma heading_not_prompt (line : string) :
  is_heading line = true -> ~ prompt_line line.
Proof.
  intros H. destruct (heading_first_char line H) as [rest ->].
  intros [P|[P|[P|P]]]; discriminate.
Qed.

(** A block that holds a heading line is fenced exactly as accumulated. *)
Lemma doc_code_block_with_heading (block : list string) (lang line : string) :
  In line block ->
  is_heading line = true ->
  doc_code_block block lang = [("```" ++ lang)%string] ++ block ++ ["```"].
Proof.
  intros I H. rewrite doc_code_block_fences.
  destruct (String.eqb lang "python"); [|reflexivity].
  destruct (heading_flush_left line H) as [T Z].
  pose proof (unindent_flush_left block line I T Z) as U.
  rewrite doctest2md_mixed, U; [reflexivity|].
  rewrite U. intros A. exact (heading_not_prompt line H (A line I)).
Qed.

End HeadingInBlock.

(** C4, as the program has it. Heading shift: for the sections (2, "A"),
    (3, "B") and a minimum level of 1 there is no shift and the sections are
    unchanged; for a minimum level of 3 the shift is 1 and the sections
    become (3, "A"), (4, "B").  In general a least level below the minimum
    gives the shift minimum - level, added to every section.  Every heading
    line that the transformer meets outside a code block is emitted, under a
    positive shift, as the heading of the same title with its level raised by
    the shift, and unchanged when the shift is 0.  A heading line met inside
    a code block is accumulated into the block like any other line, and a
    block that holds one is fenced exactly as accumulated. *)
Theorem heading_shift_spec :
  heading_shift [(2, "A"); (3, "B")]%Z 1 = (2, 0, [(2, "A"); (3, "B")])%Z
  /\ heading_shift [(2, "A"); (3, "B")]%Z 3 = (3, 1, [(3, "A"); (4, "B")])%Z
  /\ (forall first rest min_level,
        let level := min_level_of first rest in
        heading_shift (first :: rest) min_level
        = if (level <? min_level)%Z
          then (min_level, min_level - level,
                map (fun h => (fst h + (min_level - level), snd h))
                  (first :: rest))%Z
          else (level, 0%Z, first :: rest))
  /\ (forall shiftlevel st line level title,
        is_code st = false ->
        (0 < shiftlevel)%Z ->
        get_heading line = Ok (level, title) ->
        step shiftlevel st line
        = Ok (emit st [make_heading (level + shiftlevel) title])
        /\ get_heading (make_heading (level + shiftlevel) title)
           = Ok ((level + shiftlevel)%Z, title))
  /\ (forall st line,
        is_code st = false ->
        is_heading line = true ->
        step 0 st line = Ok (emit st [line]))
  /\ (forall shiftlevel st line,
        is_code st = true ->
        is_heading line = true ->
        step shiftlevel st line
        = Ok {| md := md st; is_code := true;
                code := code st ++ [line]; language := language st |})
  /\ (forall block lang line,
        In line block ->
        is_heading line = true ->
        doc_code_block block lang = [("```" ++ lang)%string] ++ block ++ ["```"])
  /\ _doc2md ["## A"; "text"; "### B"] 1 = Ok ["### A"; "text"; "#### B"; ""]
  /\ doc2md Function [":param x: y"; "## A"; "### B"] "f(x)" 3 true
     = Ok (["### f(x)"; ""; ""; "- [A](#a)"; "    - [B](#b)";
            "- x: y"; "### A"; "#### B"; ""],
           [(3, "A"); (4, "B")]%Z).
Proof.
  split; [reflexivity|]. split; [reflexivity|].
  split; [|split; [|split; [|split; [|split]]]].
  - intros first rest min_level level. unfold heading_shift. fold level.
    destruct (level <? min_level)%Z; [|reflexivity].
    f_equal. apply map_ext. now intros [lev tit].
  - intros shiftlevel st line level title C S G. split.
    + apply step_heading_shifted; (assumption || lia).
    + apply get_heading_of_make_heading.
      pose proof (get_heading_level line level title G). lia.
  - intros st line C H. now apply step_heading_unshifted.
  - intros shiftlevel st line C H. unfold step. rewrite C.
    now destruct (heading_flush_left line H) as [-> _].
  - intros block lang line I H. now apply (doc_code_block_with_heading block lang line).
  - split; reflexivity.
Qed.

Lemma heading_shift_spec_witness :
  step 1 initial "## A" = Ok (emit initial [make_heading (2 + 1) "A"])
  /\ get_heading (make_heading (2 + 1) "A") = Ok ((2 + 1)%Z, "A").
Proof.
  apply (proj1 (proj2 (proj2 (proj2 heading_shift_spec)))
           1%Z initial "## A" 2%Z "A"); reflexivity.
Defined.

(** C4, as the specification words it: not every heading line of the body
    is rewritten.  With the sections (2, "A"), (3, "B") and a minimum level
    of 3, the two heading lines below follow a transcript line without a
    blank line between: they are collected as sections, shifted in the
    section list, and left as they are in the body. *)
Lemma heading_in_block_not_shifted :
  find_sections [":param x: y"; ">>> f()"; "## A"; "### B"]
  = Ok [(2, "A"); (3, "B")]%Z
  /\ heading_shift [(2, "A"); (3, "B")]%Z 3 = (3, 1, [(3, "A"); (4, "B")])%Z
  /\ _doc2md [":param x: y"; ">>> f()"; "## A"; "### B"] 1
     = Ok ["- x: y"; "```python"; ">>> f()"; "## A"; "### B"; "```"; ""]
  /\ doc2md Function [":param x: y"; ">>> f()"; "## A"; "### B"] "f(x)" 3 true
     = Ok (["### f(x)"; ""; ""; "- [A](#a)"; "    - [B](#b)";
            "- x: y"; "```python"; ">>> f()"; "## A"; "### B"; "```"; ""],
           [(3, "A"); (4, "B")]%Z).
Proof. repeat split; reflexivity. Qed.

(** ** End of input *)

(** C8. Flush at end of input: when the input ends while a code block is
    being accumulated (a trigger line met outside a block, followed by
    non-empty lines only), the accumulated block goes through
    [doc_code_block] and is emitted between its fence lines; the closing
    fence is followed by the final empty line only. *)
Theorem flush_at_end (shiftlevel : Z) (pre : list string) (st : state)
    (first : string) (rest : list string) (lang : string) :
  run shiftlevel initial pre = Ok st ->
  is_code st = false ->
  trigger first = Some lang ->
  Forall (fun line => Py.truthy line = true) rest ->
  _doc2md (pre ++ first :: rest) shiftlevel
  = Ok (md st ++ doc_code_block (first :: rest) lang ++ [""])
  /\ doc_code_block (first :: rest) lang ++ [""]
     = [("```" ++ lang)%string]
         ++ (if String.eqb lang "python"
             then doctest2md (first :: rest) else first :: rest)
         ++ ["```"; ""].
Proof.
  intros R C T F. split.
  - unfold _doc2md. rewrite run_app, R. cbn [bind run].
    rewrite (step_trigger shiftlevel st first lang C T). cbn [bind].
    rewrite run_accumulate by (reflexivity || assumption).
    cbn [bind]. unfold finish. cbn [is_code md code language open_block app].
    now rewrite <- app_assoc.
  - rewrite doc_code_block_fences. now rewrite <- !app_assoc.
Qed.

Lemma flush_at_end_witness :
  _doc2md (["Usage:"; ""] ++ ["  >>> f(1)"; "  ... + 2"]) 0
  = Ok (["Usage:"; ""] ++ doc_code_block ["  >>> f(1)"; "  ... + 2"] "python" ++ [""])
  /\ doc_code_block ["  >>> f(1)"; "  ... + 2"] "python" ++ [""]
     = ["```python"] ++ doctest2md ["  >>> f(1)"; "  ... + 2"] ++ ["```"; ""].
Proof.
  apply (flush_at_end 0 ["Usage:"; ""]
           {| md := ["Usage:"; ""]; is_code := false; code := []; language := "" |}
           "  >>> f(1)" ["  ... + 2"] "python").
  - reflexivity.
  - reflexivity.
  - reflexivity.
  - repeat constructor.
Defined.

(** ** The last line of the output *)

Section Trailing.

Lemma truthy_lstrip (s : string) : Py.truthy (Py.lstrip s) = has_ink s.
Proof.
  induction s as [|c s IH]; [reflexivity|]. cbn [Py.lstrip has_ink].
  destruct (Py.isspace c); [exact IH | reflexivity].
Qed.

Lemma has_ink_append (a b : string) :
  has_ink (a ++ b)%string = has_ink a || has_ink b.
Proof.
  induction a as [|c a IH]; [reflexivity|]. cbn [append has_ink].
  now rewrite IH, orb_assoc.
Qed.

Lemma truthy_append_r (a b : string) :
  Py.truthy b = true -> Py.truthy (a ++ b)%string = true.
Proof. destruct a; [now intros | reflexivity]. Qed.

Lemma startswith_truthy (p s : string) :
  Py.truthy p = true -> Py.startswith p s = true -> Py.truthy s = true.
Proof.
  destruct p; [discriminate|]. destruct s; [discriminate | reflexivity].
Qed.

(** A replacement by inked text keeps the ink of a line. *)
Lemma has_ink_replace_from (old new : string) :
  has_ink new = true ->
  forall s k,
    has_ink (Py.slice_from k s) = true ->
    has_ink (Py.replace_from k old new s) = true.
Proof.
  intros N. induction s as [|c s IH]; intros k H.
  - destruct k; discriminate.
  - destruct k as [|k]; cbn [Py.replace_from].
    + destruct (String.prefix old (String c s)).
      * now rewrite has_ink_append, N.
      * cbn [Py.slice_from has_ink] in *.
        destruct (negb (Py.isspace c)); [reflexivity|]. cbn [orb] in *.
        now apply (IH 0).
    + apply IH. exact H.
Qed.

Lemma has_ink_link_types_in (table : list (string * string)) :
  Forall (fun entry => has_ink (snd entry) = true) table ->
  forall line, has_ink line = true -> has_ink (link_types_in table line) = true.
Proof.
  induction 1 as [|[c_type url] table U _ IH]; intros line H; cbn [link_types_in].
  - exact H.
  - apply IH. destruct (Py.contains c_type line); [|exact H].
    now apply has_ink_replace_from.
Qed.

(** A translated directive line is never empty. *)
Lemma directive_truthy (marker bullet line : string) :
  Py.truthy marker = true ->
  has_ink bullet = true ->
  Py.startswith marker (Py.lstrip line) = true ->
  Py.truthy (Py.lstrip (link_types (Py.replace marker bullet line))) = true.
Proof.
  intros M B S. rewrite truthy_lstrip. apply has_ink_link_types_in.
  - repeat constructor.
  - apply has_ink_replace_from; [exact B|]. cbn [Py.slice_from].
    rewrite <- truthy_lstrip. exact (startswith_truthy _ _ M S).
Qed.

Lemma make_heading_truthy (level : Z) (title : string) :
  Py.truthy (make_heading level title) = true.
Proof. unfold make_heading. now apply truthy_append_r. Qed.

Lemma finish_open (st : state) :
  is_code st = true ->
  finish st
  = (md st ++ [("```" ++ language st)%string]
       ++ (if String.eqb (language st) "python"
           then doctest2md (code st) else code st))
      ++ ["```"; ""].
Proof.
  intros C. unfold finish. rewrite C, doc_code_block_fences.
  now rewrite <- !app_assoc.
Qed.

(** After a non-empty last line, the output ends with a non-empty line and
    the final empty line. *)
Lemma step_last_nonempty (shiftlevel : Z) (st st' : state) (line : string) :
  Py.truthy line = true ->
  step shiftlevel st line = Ok st' ->
  exists body x, finish st' = body ++ [x; ""] /\ Py.truthy x = true.
Proof.
  intros T. unfold step. rewrite T.
  assert (O : forall l c, exists body x,
             finish {| md := md st; is_code := true; code := c; language := l |}
             = body ++ [x; ""] /\ Py.truthy x = true).
  { intros l c. rewrite finish_open by reflexivity. eauto. }
  destruct (is_code st) eqn:C.
  { intros [= <-]. apply O. }
  assert (E : forall pre x, Py.truthy x = true ->
             exists body y, finish (emit st (pre ++ [x])) = body ++ [y; ""]
                            /\ Py.truthy y = true).
  { intros pre x X. unfold finish, emit. cbn [is_code md]. rewrite C.
    exists (md st ++ pre), x. now rewrite <- !app_assoc. }
  destruct (Py.startswith ">>> " (Py.lstrip line)); [intros [= <-]; apply O|].
  destruct (Py.startswith "$ " (Py.lstrip line)); [intros [= <-]; apply O|].
  destruct (negb (shiftlevel =? 0)%Z && is_heading line).
  { destruct (get_heading line) as [[l t]|e]; cbn [bind]; [|discriminate].
    intros [= <-]. apply (E []), make_heading_truthy. }
  destruct (Py.startswith ":param" (Py.lstrip line)) eqn:P.
  { intros [= <-]. apply (E []). now apply directive_truthy. }
  destruct (Py.startswith ":throw" (Py.lstrip line)) eqn:Th.
  { intros [= <-]. apply (E [""]). now apply directive_truthy. }
  destruct (Py.startswith ":return" (Py.lstrip line)) eqn:R.
  { intros [= <-]. apply (E [""]). now apply directive_truthy. }
  intros [= <-]. now apply (E []).
Qed.

(** After an empty last line, the output ends with two empty lines. *)
Lemma step_last_empty (shiftlevel : Z) (st st' : state) :
  step shiftlevel st "" = Ok st' ->
  exists body, finish st' = body ++ [""; ""].
Proof.
  unfold step. cbn [Py.truthy Py.lstrip Py.startswith String.prefix is_heading].
  rewrite andb_false_r. destruct (is_code st) eqn:C; intros [= <-].
  - unfold finish. cbn [is_code md]. eexists. now rewrite <- app_assoc.
  - unfold finish, emit. cbn [is_code md]. rewrite C.
    eexists. now rewrite <- app_assoc.
Qed.

Lemma last_or_nil (lines : list string) :
  lines = [] \/ exists pre line, lines = pre ++ [line].
Proof. induction lines using rev_ind; [now left | right; eauto]. Qed.

Lemma trailing_empty_one (body : list string) (x : string) :
  Py.truthy x = true -> trailing_empty (body ++ [x; ""]) = 1.
Proof.
  intros X. unfold trailing_empty. rewrite rev_app_distr.
  cbn [rev app leading_empty Py.truthy]. now rewrite X.
Qed.

Lemma trailing_empty_two (body : list string) :
  2 <= trailing_empty (body ++ [""; ""]).
Proof.
  unfold trailing_empty. rewrite rev_app_distr.
  cbn [rev app leading_empty Py.truthy]. lia.
Qed.

End Trailing.

(** C7, as the program has it. Final line: for every input line sequence,
    the empty one included, the transformer returns, and what it returns is
    the processed lines followed by one appended empty line.  That line is
    the only empty line at the end of the output exactly when the input does
    not end with an empty line. *)
Theorem transformer_trailing_line (lines : list string) (shiftlevel : Z) :
  exists body,
    _doc2md lines shiftlevel = Ok (body ++ [""])
    /\ (trailing_empty (body ++ [""]) = 1
        <-> ~ exists pre, lines = pre ++ [""]).
Proof.
  destruct (last_or_nil lines) as [->|(pre & line & ->)].
  - exists []. split; [reflexivity|]. split; [|reflexivity].
    intros _ [pre E]. now destruct pre.
  - unfold _doc2md. rewrite run_app.
    destruct (run_total shiftlevel pre initial) as [st1 R]. rewrite R.
    cbn [bind run].
    destruct (step_total shiftlevel st1 line) as [st2 S]. rewrite S.
    cbn [bind].
    destruct (Py.truthy line) eqn:T.
    + destruct (step_last_nonempty shiftlevel st1 st2 line T S)
        as (body & x & F & X).
      exists (body ++ [x]). rewrite <- app_assoc. cbn [app]. rewrite F.
      split; [reflexivity|]. split; [|intros _; now apply trailing_empty_one].
      intros _ [pre' E]. apply app_inj_tail in E as [_ ->]. discriminate.
    + destruct line; [|discriminate].
      destruct (step_last_empty shiftlevel st1 st2 S) as [body F].
      exists (body ++ [""]). rewrite <- app_assoc. cbn [app]. rewrite F.
      split; [reflexivity|]. split.
      * intros E. pose proof (trailing_empty_two body). lia.
      * intros N. exfalso. apply N. now exists pre.
Qed.

(** C7, as the specification words it: the output does not always end with
    exactly one empty line.  A blank last input line is emitted, and the
    final empty line follows it. *)
Lemma two_trailing_empty_lines :
  _doc2md ["text"; ""] 0 = Ok ["text"; ""; ""]
  /\ trailing_empty ["text"; ""; ""] = 2
  /\ _doc2md [">>> f()"; ""] 0 = Ok ["```python"; "f()"; "```"; ""; ""]
  /\ trailing_empty ["```python"; "f()"; "```"; ""; ""] = 2.
Proof. repeat split; reflexivity. Qed.

(** * Further properties of the program *)

(** ** Indentation normaliser *)

Section Unindent.

Lemma length_lstrip_le (s : string) :
  String.length (Py.lstrip s) <= String.length s.
Proof.
  induction s as [|c s IH]; [reflexivity|]. cbn [Py.lstrip].
  destruct (Py.isspace c); cbn [String.length]; lia.
Qed.

Lemma indent_of_space (c : ascii) (s : string) :
  Py.isspace c = true -> indent_of (String c s) = S (indent_of s).
Proof.
  intros H. unfold indent_of. cbn [Py.lstrip String.length]. rewrite H.
  pose proof (length_lstrip_le s). lia.
Qed.

Lemma indent_of_ink (c : ascii) (s : string) :
  Py.isspace c = false -> indent_of (String c s) = 0.
Proof.
  intros H. unfold indent_of. cbn [Py.lstrip]. rewrite H. lia.
Qed.

(** Cutting no more than the indentation of a line keeps its stripped
    text. *)
Lemma lstrip_slice_from (s : string) :
  forall k, k <= indent_of s -> Py.lstrip (Py.slice_from k s) = Py.lstrip s.
Proof.
  induction s as [|c s IH]; intros k H.
  - now destruct k.
  - destruct k as [|k]; [reflexivity|]. cbn [Py.slice_from Py.lstrip].
    destruct (Py.isspace c) eqn:E.
    + apply IH. rewrite (indent_of_space c s E) in H. lia.
    + rewrite (indent_of_ink c s E) in H. lia.
Qed.

Lemma length_slice_from (s : string) :
  forall k, String.length (Py.slice_from k s) = String.length s - k.
Proof.
  induction s as [|c s IH]; intros [|k]; cbn [Py.slice_from String.length];
    try reflexivity.
  apply IH.
Qed.

Lemma min_nat_le (rest : list nat) :
  forall first,
    min_nat first rest <= first
    /\ forall x, In x rest -> min_nat first rest <= x.
Proof.
  unfold min_nat. induction rest as [|y rest IH]; intros first; cbn [fold_left].
  - split; [lia | intros x []].
  - destruct (IH (Nat.min first y)) as [Ha Hl]. split; [lia|].
    intros x [<-|I]; [lia | now apply Hl].
Qed.

Lemma min_nat_in (rest : list nat) :
  forall first, min_nat first rest = first \/ In (min_nat first rest) rest.
Proof.
  unfold min_nat. induction rest as [|y rest IH]; intros first; cbn [fold_left].
  - now left.
  - destruct (IH (Nat.min first y)) as [E|I].
    + rewrite E. destruct (Nat.min_spec first y) as [[_ M]|[_ M]]; rewrite M.
      * now left.
      * right. now left.
    + right. now right.
Qed.

(** What [unindent] computes: the least indentation of the non-empty lines,
    attained by one of them, cut from every line. *)
Lemma unindent_cut (lines : list string) :
  (filter Py.truthy lines = [] /\ unindent lines = lines)
  \/ exists indent,
      unindent lines = map (Py.slice_from indent) lines
      /\ (forall line, In line lines -> Py.truthy line = true ->
                       indent <= indent_of line)
      /\ exists line, In line lines /\ Py.truthy line = true
                      /\ indent_of line = indent.
Proof.
  unfold unindent. destruct (filter Py.truthy lines) as [|first rest] eqn:F.
  - now left.
  - right. exists (min_nat (indent_of first) (map indent_of rest)).
    destruct (min_nat_le (map indent_of rest) (indent_of first)) as [Ha Hl].
    split; [reflexivity|]. split.
    + intros line I T.
      assert (I' : In line (first :: rest)) by (rewrite <- F; now apply filter_In).
      destruct I' as [<-|I']; [exact Ha | apply Hl; now apply in_map].
    + destruct (min_nat_in (map indent_of rest) (indent_of first)) as [E|I].
      * exists first.
        assert (I' : In first (filter Py.truthy lines)) by (rewrite F; now left).
        apply filter_In in I' as [I' T]. now rewrite E.
      * apply in_map_iff in I as (line & E & I).
        assert (I' : In line (filter Py.truthy lines)) by (rewrite F; now right).
        apply filter_In in I' as [I' T]. now exists line.
Qed.

Lemma truthy_false (s : string) : Py.truthy s = false -> s = "".
Proof. now destruct s. Qed.

Lemma slice_from_empty (k : nat) : Py.slice_from k "" = "".
Proof. now destruct k. Qed.

End Unindent.

(** X1. [unindent] cuts the same number of leading characters from every
    line, and what it cuts is white space only: the lines keep their number,
    their order and their left-stripped text. *)
Theorem unindent_keeps_text (lines : list string) :
  (exists indent, unindent lines = map (Py.slice_from indent) lines)
  /\ List.length (unindent lines) = List.length lines
  /\ map Py.lstrip (unindent lines) = map Py.lstrip lines.
Proof.
  destruct (unindent_cut lines) as [[_ ->]|(indent & -> & L & _)].
  - split; [exists 0; now rewrite map_slice_from_zero|]. now split.
  - split; [now exists indent|]. split; [apply length_map|].
    rewrite map_map. apply map_ext_in. intros line I.
    destruct (Py.truthy line) eqn:T.
    + apply lstrip_slice_from. now apply L.
    + apply truthy_false in T. subst line. now rewrite slice_from_empty.
Qed.

(** X2. [unindent] twice is [unindent] once, provided that the block has no
    line of white space only (every non-empty line has a character that is
    not white space). *)
Theorem unindent_idempotent (lines : list string) :
  (forall line, In line lines -> Py.truthy line = true -> has_ink line = true) ->
  unindent (unindent lines) = unindent lines.
Proof.
  intros K. destruct (unindent_cut lines) as [[_ E]|(indent & E & L & line & I & T & Il)].
  - now rewrite E.
  - rewrite E.
    apply (unindent_flush_left _ (Py.slice_from indent line)).
    + now apply in_map.
    + specialize (K line I T). rewrite <- truthy_lstrip in K.
      rewrite <- (lstrip_slice_from line indent) in K by lia.
      destruct (Py.slice_from indent line); [discriminate K | reflexivity].
    + unfold indent_of. rewrite lstrip_slice_from by lia.
      rewrite length_slice_from. unfold indent_of in Il. lia.
Qed.

Lemma unindent_idempotent_witness :
  unindent (unindent ["    >>> f(1)"; ""; "      2"])
  = unindent ["    >>> f(1)"; ""; "      2"].
Proof.
  apply (unindent_idempotent ["    >>> f(1)"; ""; "      2"]).
  intros line I T. simpl in I.
  destruct I as [<-|[<-|[<-|[]]]]; [reflexivity | discriminate T | reflexivity].
Defined.

(** ** Heading parser and section extractor *)

(** X3. [get_heading] undoes [make_heading]: the line built for a level and
    a title parses back to that title and to that level, raised to 1 when it
    was below 1 ([make_heading] writes at least one [#]).  The title may be
    any text. *)
Theorem make_heading_parses_back (level : Z) (title : string) :
  get_heading (make_heading level title) = Ok (Z.max level 1, title)
  /\ make_heading level title = make_heading (Z.max level 1) title.
Proof.
  assert (E : make_heading level title = make_heading (Z.max level 1) title).
  { unfold make_heading.
    now replace (Z.max (Z.max level 1) 1) with (Z.max level 1) by lia. }
  split; [|exact E]. rewrite E. apply get_heading_of_make_heading. lia.
Qed.

(** X4. The heading test accepts exactly the lines made of one [#] or more,
    one space, and any text; [get_heading] returns the number of [#] and the
    text after that space on those lines, and fails its assertion on every
    other line. *)
Theorem get_heading_domain (line : string) :
  (is_heading line = true
   <-> exists n title,
       line = (Py.repeat_nat "#" (S n) ++ String " " title)%string)
  /\ (forall n title,
        line = (Py.repeat_nat "#" (S n) ++ String " " title)%string ->
        get_heading line = Ok (Z.of_nat (S n), title))
  /\ (get_heading line = Raise AssertionError
      <-> ~ exists n title,
            line = (Py.repeat_nat "#" (S n) ++ String " " title)%string).
Proof.
  split; [apply is_heading_shape|]. split.
  - intros n title ->.
    assert (H : is_heading (Py.repeat_nat "#" (S n) ++ String " " title)%string = true)
      by (apply is_heading_shape; eauto).
    unfold get_heading.
    now rewrite H, partition_after_hashes, length_repeat_hash.
  - rewrite <- is_heading_shape. unfold get_heading.
    destruct (is_heading line).
    + destruct (Py.partition " " line) as [[b f] a].
      split; [discriminate | intros N; now destruct N].
    + split; [intros _; discriminate | reflexivity].
Qed.

Lemma get_heading_domain_witness :
  get_heading "### Usage of #" = Ok (3%Z, "Usage of #").
Proof.
  apply (proj1 (proj2 (get_heading_domain "### Usage of #")) 2 "Usage of #").
  reflexivity.
Defined.

Section SectionLevels.

(** Each section returned comes from a heading line of the input that is not
    of level 1. *)
Lemma find_sections_lines (lines : list string) (secs : list heading) :
  find_sections lines = Ok secs ->
  List.length secs = List.length (filter is_heading lines)
  /\ forall h, In h secs ->
       exists line,
         In line lines /\ is_heading line = true
         /\ level_one line = false /\ get_heading line = Ok h.
Proof.
  intros F. pose proof (find_sections_from_spec lines []) as S.
  unfold find_sections in F. destruct (existsb level_one lines) eqn:E.
  - rewrite F in S. discriminate.
  - destruct S as (secs' & F' & M). rewrite F in F'. injection F' as ->.
    cbn [app] in *. split.
    + rewrite <- (length_map Ok secs'), M. apply length_map.
    + intros h I.
      assert (I' : In (Ok h) (map get_heading (filter is_heading lines)))
        by (rewrite <- M; now apply in_map).
      apply in_map_iff in I' as (line & G & Il).
      apply filter_In in Il as [Il H]. exists line.
      repeat split; try assumption.
      destruct (level_one line) eqn:Lo; [|reflexivity].
      assert (X : existsb level_one lines = true)
        by (apply existsb_exists; eauto).
      congruence.
Qed.

(** A heading line that is not of level 1 is of level 2 or more. *)
Lemma deep_heading_level (line : string) (h : heading) :
  is_heading line = true ->
  level_one line = false ->
  get_heading line = Ok h ->
  (2 <= fst h)%Z.
Proof.
  intros H N G. destruct h as [level title]. cbn [fst].
  pose proof (get_heading_level line level title G) as L.
  unfold level_one in N. rewrite H in N. cbn in N. apply negb_false_iff in N.
  destruct (Z.eq_dec level 1) as [->|]; [|lia].
  assert (X : Py.startswith "##" line = false)
    by (apply (level_one_level line H); eauto).
  congruence.
Qed.

Lemma find_sections_deep (lines : list string) (secs : list heading) :
  find_sections lines = Ok secs -> Forall (fun h => (2 <= fst h)%Z) secs.
Proof.
  intros F. apply Forall_forall. intros h I.
  destruct (find_sections_lines lines secs F) as [_ S].
  destruct (S h I) as (line & _ & H & N & G).
  exact (deep_heading_level line h H N G).
Qed.

End SectionLevels.

(** X5. The sections that [find_sections] returns are headings of level 2 or
    more, one for each heading line of the input, and each of them is the
    pair of a line of the input: [make_heading] gives that line back. *)
Theorem find_sections_sound (lines : list string) (secs : list heading) :
  find_sections lines = Ok secs ->
  List.length secs = List.length (filter is_heading lines)
  /\ forall h, In h secs ->
       (2 <= fst h)%Z /\ In (make_heading (fst h) (snd h)) lines.
Proof.
  intros F. destruct (find_sections_lines lines secs F) as [L S].
  split; [exact L|]. intros h I.
  destruct (S h I) as (line & Il & H & N & G).
  split; [exact (deep_heading_level line h H N G)|].
  destruct (get_heading_make_heading line H) as (l & t & G' & _ & Mk).
  rewrite G in G'. injection G' as ->. cbn [fst snd]. now rewrite Mk.
Qed.

Lemma find_sections_sound_witness :
  List.length [(2, "Usage"); (3, "More")]%Z
  = List.length (filter is_heading ["Intro"; "## Usage"; "text"; "### More"])
  /\ forall h, In h [(2, "Usage"); (3, "More")]%Z ->
       (2 <= fst h)%Z
       /\ In (make_heading (fst h) (snd h))
            ["Intro"; "## Usage"; "text"; "### More"].
Proof.
  apply (find_sections_sound ["Intro"; "## Usage"; "text"; "### More"]).
  reflexivity.
Defined.

(** ** Table of contents and heading shift *)

Section TocShift.

Lemma fold_min_shift (k : Z) (l : list Z) :
  forall a,
    fold_left Z.min (map (fun x => x + k)%Z l) (a + k)%Z
    = (fold_left Z.min l a + k)%Z.
Proof.
  induction l as [|x l IH]; intros a; cbn [map fold_left]; [reflexivity|].
  rewrite <- IH. f_equal. lia.
Qed.

Lemma min_level_of_shift (k lev : Z) (tit : string) (rest : list heading) :
  min_level_of ((lev + k)%Z, tit)
    (map (fun '(lev, tit) => ((lev + k)%Z, tit)) rest)
  = (min_level_of (lev, tit) rest + k)%Z.
Proof.
  unfold min_level_of. cbn [fst]. rewrite <- fold_min_shift. f_equal.
  rewrite !map_map. apply map_ext. now intros [l t].
Qed.

Lemma make_toc_map (sections : list heading) :
  make_toc sections
  = match sections with
    | [] => []
    | first :: rest => map (toc_item (min_level_of first rest)) sections
    end.
Proof.
  destruct sections as [|first rest]; [reflexivity|].
  unfold make_toc. now rewrite make_toc_from_map.
Qed.

Lemma contains_char_cons (c x : ascii) (s : string) :
  Py.contains (String c "") (String x s)
  = Ascii.eqb c x || Py.contains (String c "") s.
Proof.
  cbn [Py.contains]. rewrite prefix_cons, prefix_empty.
  destruct (Ascii.eqb c x); cbn [orb]; [reflexivity|].
  destruct s; reflexivity.
Qed.

Lemma contains_char_append (c : ascii) (a b : string) :
  Py.contains (String c "") (a ++ b)%string
  = Py.contains (String c "") a || Py.contains (String c "") b.
Proof.
  induction a as [|x a IH].
  - cbn [append]. now destruct b.
  - cbn [append]. now rewrite !contains_char_cons, IH, orb_assoc.
Qed.

(** Substituting text without [c] for every [c] leaves no [c]. *)
Lemma subst_char_removes (c : ascii) (new s : string) :
  Py.contains (String c "") new = false ->
  Py.contains (String c "") (subst_char c new s) = false.
Proof.
  intros N. induction s as [|x s IH]; [reflexivity|].
  cbn [subst_char]. rewrite contains_char_append, IH, orb_false_r.
  destruct (Ascii.eqb x c) eqn:E; [exact N|].
  rewrite contains_char_cons, Ascii.eqb_sym, E. reflexivity.
Qed.

(** Substituting text without [d] keeps a string free of [d]. *)
Lemma subst_char_keeps_free (c d : ascii) (new s : string) :
  Py.contains (String d "") new = false ->
  Py.contains (String d "") s = false ->
  Py.contains (String d "") (subst_char c new s) = false.
Proof.
  intros N. induction s as [|x s IH]; intros H; [reflexivity|].
  rewrite contains_char_cons in H. apply orb_false_iff in H as [Hx Hs].
  cbn [subst_char]. rewrite contains_char_append, (IH Hs), orb_false_r.
  destruct (Ascii.eqb x c); [exact N|].
  now rewrite contains_char_cons, Hx.
Qed.

Lemma anchor_slug_clean (title : string) :
  Py.contains " " (anchor_slug title) = false
  /\ Py.contains "?" (anchor_slug title) = false.
Proof.
  unfold anchor_slug. split.
  - apply subst_char_keeps_free; [reflexivity|].
    now apply subst_char_removes.
  - now apply subst_char_removes.
Qed.

End TocShift.

(** X6. The table of contents does not depend on a uniform shift of the
    levels: [make_toc] of the sections with every level raised by [k] is
    [make_toc] of the sections, and so the shift that [doc2md] applies to its
    section list leaves its table of contents as it was. *)
Theorem make_toc_shift_invariant (sections : list heading) :
  (forall k,
      make_toc (map (fun '(lev, tit) => ((lev + k)%Z, tit)) sections)
      = make_toc sections)
  /\ (forall min_level,
        make_toc (snd (heading_shift sections min_level)) = make_toc sections).
Proof.
  assert (S : forall k,
             make_toc (map (fun '(lev, tit) => ((lev + k)%Z, tit)) sections)
             = make_toc sections).
  { intros k. rewrite !make_toc_map.
    destruct sections as [|[lev tit] rest]; [reflexivity|].
    cbn [map]. rewrite (min_level_of_shift k lev tit rest).
    assert (T : forall l t,
               toc_item (min_level_of (lev, tit) rest + k) ((l + k)%Z, t)
               = toc_item (min_level_of (lev, tit) rest) (l, t)).
    { intros l t. unfold toc_item. cbn [fst snd]. do 2 f_equal. lia. }
    cbn [map]. rewrite T. f_equal.
    rewrite map_map. apply map_ext. intros [l t]. apply T. }
  split; [exact S|].
  intros min_level. unfold heading_shift.
  destruct (_ <? min_level)%Z; cbn [snd]; [apply S | reflexivity].
Qed.

(** X7. Every item of the table of contents is an indentation, then the
    link from the title of a section to its anchor, and the anchor holds no
    space and no question mark. *)
Theorem make_toc_anchor_clean (sections : list heading) (item : string) :
  In item (make_toc sections) ->
  exists n title ref,
    In title (map snd sections)
    /\ item = (Py.repeat_nat "    " n
               ++ "- [" ++ title ++ "](#" ++ ref ++ ")")%string
    /\ Py.contains " " ref = false
    /\ Py.contains "?" ref = false.
Proof.
  rewrite make_toc_map. destruct sections as [|first rest]; [intros []|].
  intros I. apply in_map_iff in I as ([lev tit] & <- & I).
  exists (Z.to_nat (lev - min_level_of first rest)), tit, (anchor_slug tit).
  split; [apply (in_map snd _ _ I)|]. split; [reflexivity|].
  apply anchor_slug_clean.
Qed.

Lemma make_toc_anchor_clean_witness :
  exists n title ref,
    In title (map snd [(2, "Why? Or not"); (3, "How to")]%Z)
    /\ "    - [How to](#how-to)"
       = (Py.repeat_nat "    " n ++ "- [" ++ title ++ "](#" ++ ref ++ ")")%string
    /\ Py.contains " " ref = false
    /\ Py.contains "?" ref = false.
Proof.
  apply (make_toc_anchor_clean [(2, "Why? Or not"); (3, "How to")]%Z).
  simpl. tauto.
Defined.

(** X8. The heading-level block of [doc2md] never lowers a level: the shift
    is not negative, the level it returns is at least the minimum asked for,
    the sections come back with their levels raised by the shift and their
    titles untouched, none of them above the level returned, and one of them
    at that level when there are sections. *)
Theorem heading_shift_levels (sections : list heading) (min_level : Z) :
  let '(level, shiftlevel, shifted) := heading_shift sections min_level in
  (0 <= shiftlevel)%Z
  /\ (min_level <= level)%Z
  /\ shifted = map (fun h => ((fst h + shiftlevel)%Z, snd h)) sections
  /\ (forall h, In h shifted -> (level <= fst h)%Z)
  /\ (sections <> [] -> exists h, In h shifted /\ fst h = level).
Proof.
  unfold heading_shift. destruct sections as [|first rest].
  - destruct (min_level <? min_level)%Z eqn:E; [lia|].
    repeat split; try lia; try reflexivity; [intros h [] | intros N; now destruct N].
  - destruct (min_level_of_least first rest) as [Le (h0 & I0 & E0)].
    set (outer := min_level_of first rest) in *.
    destruct (outer <? min_level)%Z eqn:E.
    + apply Z.ltb_lt in E. split; [lia|]. split; [lia|]. split.
      { apply map_ext. now intros [lev tit]. }
      split.
      * intros h I. apply in_map_iff in I as ([lev tit] & <- & I).
        specialize (Le _ I). cbn [fst] in *. lia.
      * intros _. exists ((fst h0 + (min_level - outer))%Z, snd h0). split.
        -- apply in_map_iff. exists h0. split; [now destruct h0 | exact I0].
        -- cbn [fst]. lia.
    + apply Z.ltb_ge in E. split; [lia|]. split; [lia|]. split.
      { rewrite <- (map_id (first :: rest)) at 1. apply map_ext.
        intros [lev tit]. cbn [fst snd]. f_equal. lia. }
      split; [exact Le|]. intros _. now exists h0.
Qed.

(** ** Directive translator *)

Section Replace.

(** Without an occurrence there is nothing to replace. *)
Lemma replace_absent (old new s : string) :
  Py.contains old s = false -> Py.replace old new s = s.
Proof.
  unfold Py.replace. induction s as [|c s IH]; intros H; [reflexivity|].
  cbn [Py.contains] in H. apply orb_false_iff in H as [P C].
  cbn [Py.replace_from]. rewrite P. f_equal. now apply IH.
Qed.

Lemma prefix_clear (old : string) (c : ascii) (s : string) :
  clear_of old (String c "") = true ->
  Py.truthy old = true ->
  String.prefix old (String c s) = false.
Proof.
  destruct old as [|d old]; [discriminate|]. intros H _.
  cbn [clear_of] in H. rewrite andb_true_r in H. apply negb_true_iff in H.
  rewrite prefix_cons, Ascii.eqb_sym, H. reflexivity.
Qed.

Lemma clear_of_cons (old : string) (c : ascii) (p : string) :
  Py.truthy old = true ->
  clear_of old (String c p) = clear_of old (String c "") && clear_of old p.
Proof.
  destruct old as [|d old]; [discriminate|]. intros _.
  cbn [clear_of]. now rewrite andb_true_r.
Qed.

(** A prefix in which no occurrence can start is copied. *)
Lemma replace_clear_prefix (old new p s : string) :
  Py.truthy old = true ->
  clear_of old p = true ->
  Py.replace old new (p ++ s) = (p ++ Py.replace old new s)%string.
Proof.
  intros T. unfold Py.replace. induction p as [|c p IH]; intros H; [reflexivity|].
  rewrite (clear_of_cons old c p T) in H. apply andb_true_iff in H as [Hc Hp].
  cbn [append Py.replace_from]. rewrite (prefix_clear old c _ Hc T).
  f_equal. now apply IH.
Qed.

Lemma contains_clear_prefix (old p s : string) :
  Py.truthy old = true ->
  clear_of old p = true ->
  Py.contains old (p ++ s) = Py.contains old s.
Proof.
  intros T. induction p as [|c p IH]; intros H; [reflexivity|].
  rewrite (clear_of_cons old c p T) in H. apply andb_true_iff in H as [Hc Hp].
  cbn [append Py.contains]. rewrite (prefix_clear old c _ Hc T).
  cbn [orb]. now apply IH.
Qed.

(** Once an occurrence is rewritten, the scan resumes after it. *)
Lemma replace_from_skip (old new : string) (p s : string) :
  Py.replace_from (String.length p) old new (p ++ s)
  = Py.replace_from 0 old new s.
Proof.
  induction p as [|c p IH]; [destruct s; reflexivity|].
  cbn [String.length append Py.replace_from]. exact IH.
Qed.

Lemma prefix_self_append (p s : string) : String.prefix p (p ++ s) = true.
Proof.
  induction p as [|c p IH]; [apply prefix_empty|].
  cbn [append]. now rewrite prefix_cons, Ascii.eqb_refl.
Qed.

Lemma replace_at_head (c : ascii) (old new s : string) :
  Py.replace (String c old) new (String c old ++ s)
  = (new ++ Py.replace (String c old) new s)%string.
Proof.
  unfold Py.replace. cbn [append Py.replace_from].
  change (String c (old ++ s)) with (String c old ++ s)%string.
  rewrite prefix_self_append.
  replace (String.length (String c old) - 1) with (String.length old)
    by (cbn [String.length]; lia).
  now rewrite replace_from_skip.
Qed.

(** The table leaves alone a prefix in which no type name can start. *)
Lemma link_types_in_clear_prefix (table : list (string * string)) (p : string) :
  Forall (fun entry => Py.truthy (fst entry) = true
                       /\ clear_of (fst entry) p = true) table ->
  forall s, link_types_in table (p ++ s) = (p ++ link_types_in table s)%string.
Proof.
  induction 1 as [|[c_type url] table [T C] _ IH]; intros s; cbn [link_types_in].
  - reflexivity.
  - cbn [fst] in *. rewrite (contains_clear_prefix c_type p s T C).
    destruct (Py.contains c_type s); [|apply IH].
    rewrite (replace_clear_prefix c_type url p s T C). apply IH.
Qed.

Lemma link_types_in_absent (table : list (string * string)) (line : string) :
  Forall (fun entry => Py.contains (fst entry) line = false) table ->
  link_types_in table line = line.
Proof.
  induction 1 as [|[c_type url] table C _ IH]; cbn [link_types_in].
  - reflexivity.
  - cbn [fst] in C. now rewrite C.
Qed.

(** A line is its indentation, which is white space, and its stripped
    text. *)
Lemma lstrip_split (line : string) :
  exists ws, line = (ws ++ Py.lstrip line)%string /\ has_ink ws = false.
Proof.
  induction line as [|c line (ws & E & W)]; [now exists ""|].
  cbn [Py.lstrip]. destruct (Py.isspace c) eqn:S.
  - exists (String c ws). cbn [append has_ink]. rewrite S, W. now rewrite <- E.
  - now exists "".
Qed.

Lemma lstrip_white_prefix (ws s : string) :
  has_ink ws = false -> Py.lstrip (ws ++ s) = Py.lstrip s.
Proof.
  induction ws as [|c ws IH]; intros H; [reflexivity|].
  cbn [has_ink] in H. apply orb_false_iff in H as [Hc Hw].
  apply negb_false_iff in Hc. cbn [append Py.lstrip]. rewrite Hc. now apply IH.
Qed.

(** White space holds none of the characters among which [ink] is found. *)
Lemma white_clear_of (old ws : string) (d : ascii) (rest : string) :
  old = String d rest ->
  Py.isspace d = false ->
  has_ink ws = false ->
  clear_of old ws = true.
Proof.
  intros -> D. induction ws as [|c ws IH]; intros H; [reflexivity|].
  cbn [has_ink] in H. apply orb_false_iff in H as [Hc Hw].
  apply negb_false_iff in Hc. cbn [clear_of]. rewrite (IH Hw), andb_true_r.
  apply negb_true_iff, Ascii.eqb_neq. intros ->. congruence.
Qed.

End Replace.

Section Bullets.

Lemma type_names_clear_of_white (ws : string) :
  has_ink ws = false ->
  Forall (fun entry => Py.truthy (fst entry) = true
                       /\ clear_of (fst entry) ws = true) type_url.
Proof.
  intros W. unfold type_url.
  repeat (apply Forall_cons;
          [ split; [reflexivity|];
            cbn [fst]; eapply white_clear_of; [reflexivity | reflexivity | exact W]
          | ]).
  apply Forall_nil.
Qed.

(** The text a directive line is turned into: the bullet, then the rest of
    the line with the marker and the type names rewritten in it. *)
Lemma bullet_shape (tail bullet line rest : string) :
  Py.lstrip line = (String ":" tail ++ rest)%string ->
  Forall (fun entry => Py.truthy (fst entry) = true
                       /\ clear_of (fst entry) bullet = true) type_url ->
  (forall s, Py.lstrip (bullet ++ s) = (bullet ++ s)%string) ->
  Py.lstrip (link_types (Py.replace (String ":" tail) bullet line))
  = (bullet ++ link_types (Py.replace (String ":" tail) bullet rest))%string.
Proof.
  intros E B L. destruct (lstrip_split line) as (ws & S & W).
  rewrite S at 1. rewrite E.
  rewrite replace_clear_prefix;
    [| reflexivity | eapply white_clear_of; [reflexivity | reflexivity | exact W]].
  rewrite replace_at_head. unfold link_types.
  rewrite (link_types_in_clear_prefix type_url ws (type_names_clear_of_white ws W)).
  rewrite (link_types_in_clear_prefix type_url bullet B).
  now rewrite lstrip_white_prefix, L.
Qed.

End Bullets.

(** X9. The bullet of a directive: outside a code block, a line whose
    left-stripped text is ":param", ":throw" or ":return" followed by some
    rest is emitted as "-", "- throw" or "- return" followed by that rest, in
    which further markers and the type names are rewritten; the indentation
    of the line is dropped.  When the rest holds no marker and no type name,
    it is emitted as it is. *)
Theorem directive_bullets (shiftlevel : Z) (st : state) (line rest : string) :
  is_code st = false ->
  (Py.lstrip line = (":param" ++ rest)%string ->
   step shiftlevel st line
   = Ok (emit st [("-" ++ link_types (Py.replace ":param" "-" rest))%string]))
  /\ (Py.lstrip line = (":throw" ++ rest)%string ->
      step shiftlevel st line
      = Ok (emit st [""; ("- throw"
                          ++ link_types (Py.replace ":throw" "- throw" rest))%string]))
  /\ (Py.lstrip line = (":return" ++ rest)%string ->
      step shiftlevel st line
      = Ok (emit st [""; ("- return"
                          ++ link_types (Py.replace ":return" "- return" rest))%string]))
  /\ (forall marker bullet,
        Py.contains marker rest = false ->
        Forall (fun entry => Py.contains (fst entry) rest = false) type_url ->
        link_types (Py.replace marker bullet rest) = rest).
Proof.
  intros C. repeat split.
  - intros E. rewrite step_param; [| exact C | rewrite E; apply prefix_self_append].
    rewrite (bullet_shape "param" "-" line rest E); [reflexivity | | reflexivity].
    repeat constructor.
  - intros E. rewrite step_throw; [| exact C | rewrite E; apply prefix_self_append].
    rewrite (bullet_shape "throw" "- throw" line rest E); [reflexivity | | reflexivity].
    repeat constructor.
  - intros E. rewrite step_return; [| exact C | rewrite E; apply prefix_self_append].
    rewrite (bullet_shape "return" "- return" line rest E); [reflexivity | | reflexivity].
    repeat constructor.
  - intros marker bullet M T. rewrite (replace_absent marker bullet rest M).
    now apply link_types_in_absent.
Qed.

Lemma directive_bullets_witness :
  step 0 initial "    :throw ValueError: when empty"
  = Ok (emit initial
          [""; ("- throw"
                ++ link_types (Py.replace ":throw" "- throw"
                                 " ValueError: when empty"))%string])
  /\ link_types (Py.replace ":throw" "- throw" " ValueError: when empty")
     = " ValueError: when empty".
Proof.
  pose proof (directive_bullets 0 initial "    :throw ValueError: when empty"
                " ValueError: when empty" eq_refl) as (_ & T & _ & A).
  split.
  - apply T. reflexivity.
  - apply A; [reflexivity | repeat constructor].
Defined.

(** ** Transformer: plain text, blank lines and blocks *)

Section Frames.

Variable shiftlevel : Z.

Lemma framed_refl (st : state) : framed [] st st.
Proof. now repeat split. Qed.

(** What was emitted before, and the block variables of a closed block, do
    not influence an iteration. *)
Lemma step_framed (before : list string) (st1 st1' st2 : state) (line : string) :
  framed before st1 st1' ->
  step shiftlevel st1 line = Ok st2 ->
  exists st2', step shiftlevel st1' line = Ok st2' /\ framed before st2 st2'.
Proof.
  intros (M & C & B). unfold step. rewrite C.
  destruct (is_code st1) eqn:C1.
  - destruct (B eq_refl) as [Bc Bl]. rewrite Bc, Bl, M.
    destruct (Py.truthy line); intros [= <-]; eexists; (split; [reflexivity|]);
      unfold framed; cbn [md is_code code language];
      repeat split; rewrite <- ?app_assoc; try reflexivity; discriminate.
  - assert (E : forall out,
               framed before (emit st1 out) (emit st1' out)).
    { intros out. unfold framed, emit. cbn [md is_code code language].
      rewrite M, C, C1, <- app_assoc. repeat split; discriminate. }
    assert (O : forall lang,
               framed before (open_block st1 lang line) (open_block st1' lang line)).
    { intros lang. unfold framed, open_block. cbn [md is_code code language].
      now rewrite M. }
    destruct (Py.startswith ">>> " (Py.lstrip line)); [intros [= <-]; eauto|].
    destruct (Py.startswith "$ " (Py.lstrip line)); [intros [= <-]; eauto|].
    destruct (negb (shiftlevel =? 0)%Z && is_heading line).
    { destruct (get_heading line) as [[l t]|e]; cbn [bind]; [|discriminate].
      intros [= <-]. eauto. }
    destruct (Py.startswith ":param" (Py.lstrip line)); [intros [= <-]; eauto|].
    destruct (Py.startswith ":throw" (Py.lstrip line)); [intros [= <-]; eauto|].
    destruct (Py.startswith ":return" (Py.lstrip line)); intros [= <-]; eauto.
Qed.

Lemma run_framed (before : list string) (lines : list string) :
  forall st1 st1' st2,
    framed before st1 st1' ->
    run shiftlevel st1 lines = Ok st2 ->
    exists st2', run shiftlevel st1' lines = Ok st2' /\ framed before st2 st2'.
Proof.
  induction lines as [|line rest IH]; intros st1 st1' st2 F R; cbn [run] in *.
  - injection R as <-. eauto.
  - destruct (step shiftlevel st1 line) as [sa|e] eqn:S; [|discriminate].
    destruct (step_framed before st1 st1' sa line F S) as (sa' & S' & F').
    rewrite S'. cbn [bind] in *. now apply (IH sa sa' st2).
Qed.

Lemma finish_framed (before : list string) (st st' : state) :
  framed before st st' -> finish st' = before ++ finish st.
Proof.
  intros (M & C & B). unfold finish. rewrite C, M.
  destruct (is_code st).
  - destruct (B eq_refl) as [-> ->]. now rewrite <- !app_assoc.
  - now rewrite <- app_assoc.
Qed.

(** An empty line leaves the transformer outside a block. *)
Lemma step_blank_normal (st st' : state) :
  step shiftlevel st "" = Ok st' -> is_code st' = false.
Proof.
  unfold step. cbn [Py.truthy Py.lstrip Py.startswith String.prefix is_heading].
  rewrite andb_false_r. destruct (is_code st) eqn:C; intros [= <-]; [reflexivity|].
  exact C.
Qed.

(** A line that is no trigger, no directive and no heading to rewrite is
    emitted as it is. *)
Lemma step_plain (st : state) (line : string) :
  is_code st = false ->
  trigger line = None ->
  Py.startswith ":" (Py.lstrip line) = false ->
  shiftlevel = 0%Z \/ is_heading line = false ->
  step shiftlevel st line = Ok (emit st [line]).
Proof.
  intros C T D H. unfold trigger in T. unfold step. rewrite C.
  destruct (Py.startswith ">>> " (Py.lstrip line)); [discriminate|].
  destruct (Py.startswith "$ " (Py.lstrip line)); [discriminate|].
  assert (G : negb (shiftlevel =? 0)%Z && is_heading line = false).
  { destruct H as [->| ->]; [reflexivity | apply andb_false_r]. }
  rewrite G.
  assert (M : forall tail, Py.startswith (String ":" tail) (Py.lstrip line) = false).
  { intros tail. unfold Py.startswith in *.
    destruct (Py.lstrip line) as [|c s]; [reflexivity|].
    rewrite prefix_cons in *. rewrite prefix_empty in D.
    now destruct (Ascii.eqb ":" c). }
  now rewrite !M.
Qed.

End Frames.

(** X10. Plain text goes through unchanged: when no line of the input starts,
    after left-stripping, with ">>> ", "$ " or ":", and no line is a heading
    (or the shift is 0), the transformer returns the input lines followed by
    the final empty line. *)
Theorem plain_text_unchanged (lines : list string) (shiftlevel : Z) :
  (forall line, In line lines ->
     trigger line = None
     /\ Py.startswith ":" (Py.lstrip line) = false
     /\ (shiftlevel = 0%Z \/ is_heading line = false)) ->
  _doc2md lines shiftlevel = Ok (lines ++ [""]).
Proof.
  intros P. unfold _doc2md.
  assert (R : forall st,
             is_code st = false ->
             run shiftlevel st lines = Ok (emit st lines)).
  { induction lines as [|line rest IH]; intros st C; cbn [run].
    - unfold emit. rewrite app_nil_r. now destruct st.
    - destruct (P line (or_introl eq_refl)) as (T & D & H).
      rewrite (step_plain shiftlevel st line C T D H). cbn [bind].
      rewrite IH; [|intros l I; apply P; now right | exact C].
      unfold emit. cbn [md is_code code language]. now rewrite <- app_assoc. }
  rewrite (R initial eq_refl). reflexivity.
Qed.

Lemma plain_text_unchanged_witness :
  _doc2md ["Some text."; ""; "   indented, with a $ sign"; "#hashtag"] 2
  = Ok (["Some text."; ""; "   indented, with a $ sign"; "#hashtag"] ++ [""]).
Proof.
  apply (plain_text_unchanged
           ["Some text."; ""; "   indented, with a $ sign"; "#hashtag"] 2).
  intros line I. simpl in I.
  destruct I as [<-|[<-|[<-|[<-|[]]]]]; repeat split; try reflexivity;
    right; reflexivity.
Defined.

(** X11. A blank line is a point where the transformation splits: the
    output for a document that has an empty line in it is the output for the
    part up to and including that line, without its final empty line,
    followed by the output for the part after it. *)
Theorem transform_splits_at_blank (a b : list string) (shiftlevel : Z) :
  exists body out,
    _doc2md (a ++ [""]) shiftlevel = Ok (body ++ [""])
    /\ _doc2md b shiftlevel = Ok out
    /\ _doc2md (a ++ "" :: b) shiftlevel = Ok (body ++ out).
Proof.
  unfold _doc2md.
  destruct (run_total shiftlevel (a ++ [""]) initial) as [sa Ra].
  destruct (run_total shiftlevel b initial) as [sb Rb].
  assert (Ca : is_code sa = false).
  { rewrite run_app in Ra.
    destruct (run shiftlevel initial a) as [s0|e]; [|discriminate].
    cbn [bind run] in Ra.
    destruct (step shiftlevel s0 "") as [s1|e] eqn:S; [|discriminate].
    cbn [bind] in Ra. injection Ra as <-.
    exact (step_blank_normal shiftlevel s0 s1 S). }
  assert (F : framed (md sa) initial sa).
  { unfold framed. cbn [md is_code initial]. rewrite app_nil_r, Ca.
    repeat split; discriminate. }
  destruct (run_framed shiftlevel (md sa) b initial sa sb F Rb) as (sb' & Rb' & F').
  exists (md sa), (finish sb). rewrite Ra, Rb. cbn [bind].
  split; [unfold finish; now rewrite Ca|]. split; [reflexivity|].
  change (a ++ "" :: b) with (a ++ [""] ++ b). rewrite app_assoc, run_app, Ra.
  cbn [bind]. rewrite Rb'. cbn [bind]. now rewrite (finish_framed (md sa) sb sb').
Qed.

Section Blocks.

Lemma slice_from_add (s : string) :
  forall j k, Py.slice_from k (Py.slice_from j s) = Py.slice_from (j + k) s.
Proof.
  induction s as [|c s IH]; intros j k.
  - now rewrite !slice_from_empty.
  - destruct j as [|j]; [reflexivity|]. cbn [Py.slice_from Nat.add]. apply IH.
Qed.

(** The normalised, and possibly prompt-stripped, block: one cut for all of
    its lines. *)
Lemma doctest2md_cut (lines : list string) :
  exists k, doctest2md lines = map (Py.slice_from k) lines.
Proof.
  unfold doctest2md.
  destruct (unindent_cut lines) as [[_ E]|(indent & E & _)]; rewrite E.
  - destruct (only_code_scan lines).
    + exists 4. apply strip_prompts_map.
    + exists 0. now rewrite map_slice_from_zero.
  - destruct (only_code_scan _).
    + exists (indent + 4). rewrite strip_prompts_map, map_map. cbn [app].
      apply map_ext. intros line. apply slice_from_add.
    + now exists indent.
Qed.

End Blocks.

(** X12. A code block ended by a blank line: a trigger line at the start of
    the input, the non-empty lines after it and the empty line that ends
    them are emitted as the fenced block and that empty line; no line of the
    block is translated, whatever it looks like, and the lines after the
    blank one are transformed on their own. *)
Theorem block_closed_by_blank (first : string) (rest tail : list string)
    (lang : string) (shiftlevel : Z) :
  trigger first = Some lang ->
  Forall (fun line => Py.truthy line = true) rest ->
  exists out,
    _doc2md tail shiftlevel = Ok out
    /\ _doc2md (first :: rest ++ "" :: tail) shiftlevel
       = Ok (doc_code_block (first :: rest) lang ++ "" :: out).
Proof.
  intros T F. unfold _doc2md.
  destruct (run_total shiftlevel tail initial) as [sb Rb].
  exists (finish sb). rewrite Rb. cbn [bind]. split; [reflexivity|].
  cbn [run]. rewrite (step_trigger shiftlevel initial first lang eq_refl T).
  cbn [bind]. rewrite run_app.
  rewrite run_accumulate by (reflexivity || assumption).
  cbn [bind run]. unfold step at 1.
  cbn [is_code md code language open_block initial Py.truthy app].
  cbn [bind].
  set (sa := {| md := _; is_code := false; code := _; language := _ |}).
  assert (Fr : framed (md sa) initial sa).
  { unfold framed. cbn [md is_code initial sa]. rewrite app_nil_r.
    repeat split; discriminate. }
  destruct (run_framed shiftlevel (md sa) tail initial sa sb Fr Rb) as (sb' & Rb' & F').
  rewrite Rb'. cbn [bind]. rewrite (finish_framed (md sa) sb sb' F').
  cbn [md sa]. now rewrite <- app_assoc.
Qed.

Lemma block_closed_by_blank_witness :
  exists out,
    _doc2md ["after"] 0 = Ok out
    /\ _doc2md ("  $ ls" :: ["  :param x"; "  ## not a heading"] ++ "" :: ["after"]) 0
       = Ok (doc_code_block ["  $ ls"; "  :param x"; "  ## not a heading"] "bash"
               ++ "" :: out).
Proof.
  apply (block_closed_by_blank "  $ ls" ["  :param x"; "  ## not a heading"]
           ["after"] "bash" 0).
  - reflexivity.
  - repeat constructor.
Defined.

(** X13. Fencing only cuts line starts: [doc_code_block] returns the opening
    fence with the language, one line for each line of the block in the same
    order, and the closing fence; each of those lines is the line of the block
    with the same number [k] of leading characters removed, and [k] is 0 when
    the language is not "python". *)
Theorem doc_code_block_cut (lines : list string) (language : string) :
  exists k,
    doc_code_block lines language
    = [("```" ++ language)%string] ++ map (Py.slice_from k) lines ++ ["```"]
    /\ (language <> "python" -> k = 0).
Proof.
  rewrite doc_code_block_fences.
  destruct (String.eqb language "python") eqn:E.
  - destruct (doctest2md_cut lines) as [k ->]. exists k. split; [reflexivity|].
    apply String.eqb_eq in E. intros N. now destruct N.
  - exists 0. now rewrite map_slice_from_zero.
Qed.

(** ** Entity renderer *)

Section Renderer.

(** The loop that copies the leading free text stops at the first line whose
    stripped text starts with a colon. *)
Lemma pop_free_text_split (lines : list string) :
  forall md,
  exists pre rest,
    lines = pre ++ rest
    /\ pop_free_text md lines = (md ++ map Py.lstrip pre, rest)
    /\ Forall (fun line => Py.startswith ":" (Py.lstrip line) = false) pre
    /\ match rest with
       | [] => True
       | line :: _ => Py.startswith ":" (Py.lstrip line) = true
       end.
Proof.
  induction lines as [|line lines IH]; intros md.
  - exists [], []. cbn. rewrite app_nil_r. repeat split. constructor.
  - cbn [pop_free_text]. destruct (Py.startswith ":" (Py.lstrip line)) eqn:E; cbn [negb].
    + exists [], (line :: lines). cbn. rewrite app_nil_r. repeat split; [constructor | exact E].
    + destruct (IH (md ++ [Py.lstrip line])) as (pre & rest & -> & P & F & R).
      exists (line :: pre), rest. rewrite P, <- app_assoc. repeat split.
      * now constructor.
      * exact R.
Qed.

(** The level of the title line: one more for a class. *)
Lemma kind_level (k : kind) (level : Z) :
  k <> Other ->
  match k with
  | Function | Method => Ok level
  | Class => Ok (level + 1)%Z
  | Other => Raise NotKnownType
  end = Ok (if match k with Class => true | _ => false end
            then (level + 1)%Z else level).
Proof. destruct k; intros N; try reflexivity. now destruct N. Qed.

(** The transformer raises on no input. *)
Lemma transformer_total (lines : list string) (shiftlevel : Z) :
  exists out, _doc2md lines shiftlevel = Ok out.
Proof.
  unfold _doc2md. destruct (run_total shiftlevel lines initial) as [st R].
  rewrite R. cbn [bind]. eauto.
Qed.

End Renderer.

(** X14. The layout of what [doc2md] returns, given the kind of the entity
    and the title recovered for it: the title heading (at the level of the
    heading-level block, one deeper for a class; a title that starts with an
    underscore gets a backslash before it), an empty line, the lines before
    the first line whose stripped text starts with a colon, each of them
    left-stripped and none of them transformed, an empty line, the table of
    contents if asked for, and the transformer's output for the remaining
    lines under the shift.  The sections returned are the shifted ones. *)
Theorem doc2md_layout (k : kind) (lines : list string) (title : string)
    (min_level : Z) (toc : bool) (sections : list heading) :
  find_sections lines = Ok sections ->
  k <> Other ->
  let '(level, shiftlevel, shifted) := heading_shift sections min_level in
  exists pre rest body,
    lines = pre ++ rest
    /\ Forall (fun line => Py.startswith ":" (Py.lstrip line) = false) pre
    /\ match rest with
       | [] => True
       | line :: _ => Py.startswith ":" (Py.lstrip line) = true
       end
    /\ _doc2md rest shiftlevel = Ok body
    /\ doc2md k lines title min_level toc
       = Ok ([make_heading
                (if match k with Class => true | _ => false end
                 then (level + 1)%Z else level)
                (if Py.startswith "_" title then ("\" ++ title)%string else title);
              ""]
               ++ map Py.lstrip pre ++ [""]
               ++ (if toc then make_toc shifted else [])
               ++ body,
             shifted).
Proof.
  intros F K. unfold doc2md. rewrite F. cbn [bind].
  destruct (heading_shift sections min_level) as [[level shiftlevel] shifted].
  rewrite (kind_level k level K). cbn [bind].
  set (head := [make_heading _ _; ""]).
  destruct (pop_free_text_split lines head) as (pre & rest & E & P & Fp & R).
  rewrite P.
  destruct (transformer_total rest shiftlevel) as [body B].
  exists pre, rest, body. rewrite B. cbn [bind].
  repeat split; try assumption.
  destruct toc; now rewrite <- ?app_assoc.
Qed.

Lemma doc2md_layout_witness :
  exists pre rest body,
    ["Does it."; "  >>> f()"; ":param x: y"; "## A"] = pre ++ rest
    /\ Forall (fun line => Py.startswith ":" (Py.lstrip line) = false) pre
    /\ match rest with
       | [] => True
       | line :: _ => Py.startswith ":" (Py.lstrip line) = true
       end
    /\ _doc2md rest 1 = Ok body
    /\ doc2md Function ["Does it."; "  >>> f()"; ":param x: y"; "## A"]
         "_f(x)" 3 true
       = Ok (["### \_f(x)"; ""] ++ map Py.lstrip pre ++ [""]
               ++ make_toc [(3, "A")]%Z ++ body,
             [(3, "A")]%Z).
Proof.
  exact (doc2md_layout Function ["Does it."; "  >>> f()"; ":param x: y"; "## A"]
           "_f(x)" 3 true [(2, "A")]%Z eq_refl ltac:(discriminate)).
Defined.

(** X15. The two errors that [doc2md] raises by itself, given the kind of
    the entity: a level-1 heading line in the docstring raises the section
    error whatever the kind is; without one, an entity that is neither a
    function, a class nor a method raises the unknown-type error.  So
    [doc2md] returns only for a docstring without level-1 heading line and an
    entity of one of the three kinds.  (Whether the title can be recovered
    from the source text of such an entity is not part of the statement.) *)
Theorem doc2md_errors (k : kind) (lines : list string) (title : string)
    (min_level : Z) (toc : bool) :
  ((exists line, In line lines /\ level_one line = true) ->
   doc2md k lines title min_level toc = Raise BiggerHeader)
  /\ (~ (exists line, In line lines /\ level_one line = true) ->
      k = Other ->
      doc2md k lines title min_level toc = Raise NotKnownType)
  /\ (forall md sections,
        doc2md k lines title min_level toc = Ok (md, sections) ->
        ~ (exists line, In line lines /\ level_one line = true)
        /\ k <> Other).
Proof.
  pose proof (find_sections_from_spec lines []) as S.
  assert (B : (exists line, In line lines /\ level_one line = true) ->
              doc2md k lines title min_level toc = Raise BiggerHeader).
  { intros E. apply existsb_exists in E. rewrite E in S.
    unfold doc2md, find_sections. now rewrite S. }
  split; [exact B|]. split.
  - intros N ->. destruct (existsb level_one lines) eqn:E.
    { exfalso. apply N. now apply existsb_exists. }
    destruct S as (secs & F & _). cbn [app] in F.
    unfold doc2md, find_sections. rewrite F. cbn [bind].
    now destruct (heading_shift secs min_level) as [[level shiftlevel] shifted].
  - intros md sections D. split.
    + intros E. rewrite (B E) in D. discriminate.
    + intros ->. unfold doc2md in D.
      destruct (find_sections lines) as [secs|e]; [|discriminate].
      cbn [bind] in D.
      destruct (heading_shift secs min_level) as [[level shiftlevel] shifted].
      discriminate.
Qed.

Lemma doc2md_errors_witness :
  doc2md Function ["Text."; "# Title"] "f(x)" 1 true = Raise BiggerHeader
  /\ doc2md Other ["Text."; "## Usage"] "x" 1 true = Raise NotKnownType.
Proof.
  split.
  - apply (proj1 (doc2md_errors Function ["Text."; "# Title"] "f(x)" 1 true)).
    exists "# Title". split; [simpl; tauto | reflexivity].
  - apply (proj1 (proj2 (doc2md_errors Other ["Text."; "## Usage"] "x" 1 true)));
      [|reflexivity].
    intros (line & I & L). simpl in I.
    destruct I as [<-|[<-|[]]]; discriminate.
Defined.

(** ** Rendering of classes *)

Section ClassRendering.

Lemma doc2md_ok_inv (k : kind) (lines : list string) (title : string)
    (min_level : Z) (toc : bool) (md : list string) (secs : list heading) :
  doc2md k lines title min_level toc = Ok (md, secs) ->
  k <> Other
  /\ exists sections,
      find_sections lines = Ok sections
      /\ secs = snd (heading_shift sections min_level).
Proof.
  unfold doc2md. destruct (find_sections lines) as [sections|e]; [|discriminate].
  cbn [bind].
  destruct (heading_shift sections min_level) as [[level shiftlevel] shifted] eqn:H.
  destruct k; cbn [bind]; try discriminate;
    destruct (pop_free_text _ lines) as [m rest];
    destruct (_doc2md rest shiftlevel) as [body|e]; cbn [bind]; try discriminate;
    intros [= _ <-]; (split; [discriminate|]);
    exists sections; now rewrite H.
Qed.

(** No section comes back from the heading-level block above the minimum
    level. *)
Lemma heading_shift_floor (sections : list heading) (min_level : Z) :
  forall h, In h (snd (heading_shift sections min_level)) -> (min_level <= fst h)%Z.
Proof.
  unfold heading_shift. destruct sections as [|first rest].
  - destruct (min_level <? min_level)%Z; intros h [].
  - destruct (min_level_of_least first rest) as [Le _].
    destruct (min_level_of first rest <? min_level)%Z eqn:E; cbn [snd]; intros h I.
    + apply Z.ltb_lt in E. apply in_map_iff in I as ([lev tit] & <- & I).
      specialize (Le _ I). cbn [fst] in *. lia.
    + apply Z.ltb_ge in E. specialize (Le _ I). lia.
Qed.

Lemma render_floor (e : entity) (min_level : Z) (md : list string)
    (secs : list heading) :
  render e min_level = Ok (md, secs) ->
  Forall (fun h => (min_level <= fst h)%Z) secs.
Proof.
  intros R. apply doc2md_ok_inv in R as (_ & sections & _ & ->).
  apply Forall_forall, heading_shift_floor.
Qed.

Lemma render_other (e : entity) (min_level : Z) :
  ent_kind e = Other -> exists err, render e min_level = Raise err.
Proof.
  intros K. destruct (render e min_level) as [[md secs]|err] eqn:R; [|eauto].
  apply doc2md_ok_inv in R as (N & _). now destruct N.
Qed.

(** The members that the loop renders. *)
Lemma class2md_from_spec (min_level : Z) (members : list (string * entity)) :
  forall md sec md' sec',
    class2md_from min_level md sec members = Ok (md', sec')
    <-> exists rendered,
        Forall2 (fun member r => render (snd member) (min_level + 2) = Ok r)
          (filter (fun member => negb (is_dunder (fst member))) members)
          rendered
        /\ md' = md ++ concat (map (fun r => fst r ++ [Py.newline]) rendered)
        /\ sec' = sec ++ concat (map snd rendered).
Proof.
  induction members as [|[name member] rest IH]; intros md sec md' sec';
    cbn [class2md_from filter fst].
  - split.
    + intros [= <- <-]. exists []. cbn. rewrite !app_nil_r. repeat split. constructor.
    + intros (rendered & F & -> & ->). inversion F; subst. cbn. now rewrite !app_nil_r.
  - destruct (is_dunder name); cbn [negb]; [apply IH|].
    destruct (render member (min_level + 2)) as [[c_md c_sec]|err] eqn:R; cbn [bind].
    + rewrite IH. split.
      * intros (rendered & F & -> & ->). exists ((c_md, c_sec) :: rendered).
        split; [constructor; [exact R | exact F]|].
        cbn [map concat fst snd]. now rewrite <- !app_assoc.
      * intros (rendered & F & -> & ->).
        inversion F as [|x r l rs Rx F']; subst. cbn [snd] in Rx.
        rewrite R in Rx. injection Rx as <-.
        exists rs. split; [exact F'|]. cbn [map concat fst snd].
        now rewrite <- !app_assoc.
    + split; [discriminate|]. intros (rendered & F & _).
      inversion F as [|x r l rs Rx F']; subst. cbn [snd] in Rx. congruence.
Qed.

End ClassRendering.

(** X16. How [class2md] composes [doc2md], given the class and its sorted
    members as [inspect] shows them: it returns exactly when the class and
    every member whose name is not of the form [__x__] render, the members
    two levels deeper than the class and without a table of contents; the
    lines are those of the class followed, for each such member in order, by
    its lines and a line that is a newline character, and the sections are
    those of the class followed by those of the members. *)
Theorem class2md_composition (cls : entity) (members : list (string * entity))
    (min_level : Z) (md : list string) (sec : list heading) :
  class2md cls members min_level = Ok (md, sec)
  <-> exists md0 sec0 rendered,
      render cls min_level = Ok (md0, sec0)
      /\ Forall2 (fun member r => render (snd member) (min_level + 2) = Ok r)
           (filter (fun member => negb (is_dunder (fst member))) members)
           rendered
      /\ md = md0 ++ concat (map (fun r => fst r ++ [Py.newline]) rendered)
      /\ sec = sec0 ++ concat (map snd rendered).
Proof.
  unfold class2md.
  destruct (render cls min_level) as [[md0 sec0]|err]; cbn [bind].
  - rewrite class2md_from_spec. split.
    + intros (rendered & F & -> & ->). now exists md0, sec0, rendered.
    + intros (m & s & rendered & [= <- <-] & F & -> & ->). now exists rendered.
  - split; [discriminate|]. intros (m & s & rendered & E & _). discriminate.
Qed.

(** X17. The levels of the sections that [class2md] returns: those of the
    class come first and none is above the minimum level; those of the
    members follow and none is less than two levels below it. *)
Theorem class2md_section_levels (cls : entity) (members : list (string * entity))
    (min_level : Z) (md : list string) (sec : list heading) :
  class2md cls members min_level = Ok (md, sec) ->
  exists md0 sec0 deeper,
    render cls min_level = Ok (md0, sec0)
    /\ sec = sec0 ++ deeper
    /\ Forall (fun h => (min_level <= fst h)%Z) sec0
    /\ Forall (fun h => (min_level + 2 <= fst h)%Z) deeper.
Proof.
  unfold class2md.
  destruct (render cls min_level) as [[md0 sec0]|err] eqn:R; cbn [bind]; [|discriminate].
  intros C. apply class2md_from_spec in C as (rendered & F & _ & ->).
  exists md0, sec0, (concat (map snd rendered)).
  split; [reflexivity|]. split; [reflexivity|].
  split; [exact (render_floor cls min_level md0 sec0 R)|].
  clear R. induction F as [|member [m s] l rs Rm F IH]; [constructor|].
  cbn [map concat snd]. apply Forall_app. split; [|exact IH].
  exact (render_floor (snd member) (min_level + 2) m s Rm).
Qed.

(** X18. A class with a member that is neither a function, a class nor a
    method, under a name that is not of the form [__x__], cannot be rendered:
    [class2md] raises. *)
Theorem class2md_unknown_member (cls : entity) (members : list (string * entity))
    (min_level : Z) (name : string) (member : entity) :
  In (name, member) members ->
  is_dunder name = false ->
  ent_kind member = Other ->
  exists err, class2md cls members min_level = Raise err.
Proof.
  intros I D K.
  destruct (class2md cls members min_level) as [[md sec]|err] eqn:C; [|eauto].
  exfalso. unfold class2md in C.
  destruct (render cls min_level) as [[md0 sec0]|e]; cbn [bind] in C; [|discriminate].
  apply class2md_from_spec in C as (rendered & F & _).
  assert (I' : In (name, member)
                 (filter (fun member => negb (is_dunder (fst member))) members)).
  { apply filter_In. split; [exact I|]. cbn [fst]. now rewrite D. }
  clear I. induction F as [|x r l rs Rx F IH]; [destruct I'|].
  destruct I' as [->|I']; [|now apply IH]. cbn [snd] in Rx.
  destruct (render_other member (min_level + 2) K) as [e E]. congruence.
Qed.

Lemma class2md_section_levels_witness :
  exists md0 sec0 deeper,
    render {| ent_kind := Class;
              ent_lines := ["A class."; ":param x: y"; "## Usage"];
              ent_title := "C(x)" |} 1
    = Ok (md0, sec0)
    /\ [(2, "Usage"); (3, "Notes")]%Z = sec0 ++ deeper
    /\ Forall (fun h => (1 <= fst h)%Z) sec0
    /\ Forall (fun h => (1 + 2 <= fst h)%Z) deeper.
Proof.
  eapply (class2md_section_levels
            {| ent_kind := Class;
               ent_lines := ["A class."; ":param x: y"; "## Usage"];
               ent_title := "C(x)" |}
            [("__init__", {| ent_kind := Function; ent_lines := [""];
                             ent_title := "__init__(self, x)" |});
             ("run", {| ent_kind := Function;
                        ent_lines := ["Runs."; ":return: a bool"; "## Notes"];
                        ent_title := "run(self)" |})]
            1).
  reflexivity.
Defined.

Lemma class2md_unknown_member_witness :
  exists err,
    class2md {| ent_kind := Class; ent_lines := ["A class."]; ent_title := "C()" |}
      [("__doc__", {| ent_kind := Other; ent_lines := ["A class."];
                      ent_title := "__doc__" |});
       ("limit", {| ent_kind := Other; ent_lines := ["int([x]) -> integer"];
                    ent_title := "limit" |})]
      1
    = Raise err.
Proof.
  apply (class2md_unknown_member _ _ 1 "limit"
           {| ent_kind := Other; ent_lines := ["int([x]) -> integer"];
              ent_title := "limit" |}).
  - simpl. tauto.
  - reflexivity.
  - reflexivity.
Defined.

(** ** Rendering of modules *)

Section ModuleRendering.

(** The level of the title of a module: one above its shallowest section. *)
Lemma module_level_above (sections : list heading) :
  Forall (fun h => (2 <= fst h)%Z) sections ->
  let level := match sections with
               | [] => 1%Z
               | s :: more => (min_level_of s more - 1)%Z
               end in
  (1 <= level)%Z /\ Forall (fun h => (level < fst h)%Z) sections.
Proof.
  intros D. destruct sections as [|s more]; cbn zeta.
  - split; [lia | constructor].
  - destruct (min_level_of_least s more) as [Le (h & I & E)].
    rewrite Forall_forall in D. specialize (D h I). split; [lia|].
    apply Forall_forall. intros x Ix. specialize (Le x Ix). lia.
Qed.


(** Entries that are neither classes nor documented add nothing. *)
Lemma mod2md_from_undocumented (level : Z) (entries : list entry) :
  Forall (fun x => match x with
                   | OtherEntry _ false _ => True
                   | _ => False
                   end) entries ->
  forall acc, mod2md_from level acc entries = Ok acc.
Proof.
  induction 1 as [|[name cls members|name [|] e] rest U _ IH]; intros acc;
    cbn [mod2md_from]; try contradiction; [reflexivity | apply IH].
Qed.

End ModuleRendering.

(** X19. The title of a module and its sections, given the docstring lines
    and the entries as [inspect] shows them: when [mod2md] returns, the text
    it joins starts with the title heading, an empty line, the first line of
    the docstring as it is, and an empty line; the level of the title
    heading is at least 1 and strictly above the level of every heading line
    of the docstring. *)
Theorem mod2md_title_above_sections (first : string) (rest : list string)
    (entries : list entry) (title : string) (toc : bool) (text : string) :
  mod2md first rest entries title toc = Ok text ->
  exists level sections more,
    find_sections (first :: rest) = Ok sections
    /\ text = Py.join Py.newline
                (make_heading level title :: "" :: first :: "" :: more)
    /\ (1 <= level)%Z
    /\ Forall (fun h => (level < fst h)%Z) sections.
Proof.
  unfold mod2md, mod2md_lines.
  destruct (find_sections (first :: rest)) as [sections|err] eqn:F; [|discriminate].
  cbn [bind].
  destruct (module_level_above sections (find_sections_deep _ _ F)) as [L A].
  set (level := match sections with
                | [] => 1%Z
                | s :: more => (min_level_of s more - 1)%Z
                end) in *.
  destruct (mod2md_from level _ entries) as [acc|err]; [|discriminate].
  cbn [bind]. destruct (_doc2md rest 0) as [body|err]; [|discriminate].
  cbn [bind]. intros [= <-]. exists level, sections.
  destruct toc, (0 <? List.length (class_md acc))%nat,
    (0 <? List.length (api_md acc))%nat;
    rewrite <- ?app_assoc; cbn [app];
    (eexists; split; [reflexivity|]; split; [reflexivity|]; now split).
Qed.

Lemma mod2md_title_above_sections_witness :
  exists level sections more,
    find_sections ["Module summary."; ""; "### Usage"] = Ok sections
    /\ Py.join Py.newline
         ["## mod"; ""; "Module summary."; ""; "- [Usage](#usage)";
          ""; "### Usage"; ""]
       = Py.join Py.newline
           (make_heading level "mod" :: "" :: "Module summary." :: "" :: more)
    /\ (1 <= level)%Z
    /\ Forall (fun h => (level < fst h)%Z) sections.
Proof.
  apply (mod2md_title_above_sections "Module summary." [""; "### Usage"]
           [] "mod" true).
  reflexivity.
Defined.

(** X20. A module whose listed entries are neither classes nor documented
    (none listed included): the lines that [mod2md] joins are the title
    heading, an empty line, the first docstring line, an empty line, the
    table of contents if asked for, and the transformer's output, without
    shift, for the other docstring lines; no "Class" or "Functions" part
    follows.  The table of contents is that of the docstring sections, with
    one more item, "API", one level below the title, as soon as an entry is
    listed. *)
Theorem mod2md_without_api (first : string) (rest : list string)
    (entries : list entry) (title : string) (toc : bool)
    (sections : list heading) :
  Forall (fun x => match x with
                   | OtherEntry _ false _ => True
                   | _ => False
                   end) entries ->
  find_sections (first :: rest) = Ok sections ->
  let level := match sections with
               | [] => 1%Z
               | s :: more => (min_level_of s more - 1)%Z
               end in
  exists body,
    _doc2md rest 0 = Ok body
    /\ mod2md_lines first rest entries title toc
       = Ok ([make_heading level title; ""; first; ""]
               ++ (if toc
                   then make_toc (sections
                                    ++ match entries with
                                       | [] => []
                                       | _ :: _ => [((level + 1)%Z, "API")]
                                       end)
                   else [])
               ++ body).
Proof.
  intros U F level. unfold mod2md_lines. rewrite F. cbn [bind]. fold level.
  rewrite (mod2md_from_undocumented level entries U). cbn [bind].
  destruct (transformer_total rest 0) as [body B]. exists body. rewrite B.
  cbn [bind api_md api_sec class_md class_sec List.length Nat.ltb Nat.leb].
  split; [reflexivity|]. rewrite app_nil_r.
  destruct toc, entries; rewrite ?app_nil_r; reflexivity.
Qed.

Lemma mod2md_without_api_witness :
  exists body,
    _doc2md [""; "## Usage"] 0 = Ok body
    /\ mod2md_lines "Module summary." [""; "## Usage"]
         [OtherEntry "helper" false
            {| ent_kind := Function; ent_lines := [""]; ent_title := "helper()" |}]
         "mod" true
       = Ok (["# mod"; ""; "Module summary."; ""]
               ++ make_toc ([(2, "Usage")]%Z ++ [((1 + 1)%Z, "API")])
               ++ body).
Proof.
  apply (mod2md_without_api "Module summary." [""; "## Usage"]
           [OtherEntry "helper" false
              {| ent_kind := Function; ent_lines := [""]; ent_title := "helper()" |}]
           "mod" true [(2, "Usage")]%Z).
  - repeat constructor.
  - reflexivity.
Defined.



(** ** Parameter lines and intact links *)

Section Compatible.

Lemma compatible_sym (a b : string) : compatible a b = compatible b a.
Proof. unfold compatible. apply orb_comm. Qed.

Lemma compatible_cons (c d : ascii) (a b : string) :
  compatible (String c a) (String d b)
  = if Ascii.eqb c d then compatible a b else false.
Proof.
  unfold compatible. rewrite !prefix_cons, (Ascii.eqb_sym d c).
  now destruct (Ascii.eqb c d).
Qed.

(** A string that starts a text of which [v] is the beginning is compatible
    with [v]. *)
Lemma prefix_app_compatible (m : string) :
  forall v X, String.prefix m (v ++ X) = true -> compatible m v = true.
Proof.
  induction m as [|d m IH]; intros v X H.
  - unfold compatible. now rewrite prefix_empty.
  - destruct v as [|e v].
    + unfold compatible. rewrite (prefix_empty (String d m)). apply orb_true_r.
    + cbn [append] in H. rewrite prefix_cons in H. rewrite compatible_cons.
      destruct (Ascii.eqb d e); [now apply (IH v X) | discriminate].
Qed.

(** Two strings that start the same text are compatible. *)
Lemma prefix_both_compatible (a : string) :
  forall b s,
    String.prefix a s = true -> String.prefix b s = true -> compatible a b = true.
Proof.
  induction a as [|x a IH]; intros b s Ha Hb.
  - unfold compatible. now rewrite prefix_empty.
  - destruct b as [|y b].
    + unfold compatible. rewrite (prefix_empty (String x a)). apply orb_true_r.
    + destruct s as [|c s]; [discriminate|].
      rewrite prefix_cons in Ha, Hb. rewrite compatible_cons.
      destruct (Ascii.eqb x c) eqn:Ex; [|discriminate].
      destruct (Ascii.eqb y c) eqn:Ey; [|discriminate].
      apply Ascii.eqb_eq in Ex, Ey. subst. rewrite Ascii.eqb_refl.
      now apply (IH b s).
Qed.

Lemma clash_cons (a : string) (c : ascii) (b : string) :
  clash a (String c b) = false ->
  compatible a (String c b) = false /\ clash a b = false.
Proof. cbn [clash]. apply orb_false_iff. Qed.

End Compatible.

Section OneReplacement.

(** The replacement of [name] by [url]. *)
Variables name url : string.
Hypothesis name_truthy : Py.truthy name = true.

Lemma replace_from_match (c : ascii) (s : string) :
  String.prefix name (String c s) = true ->
  Py.replace_from 0 name url (String c s)
  = (url ++ Py.replace_from (String.length name - 1) name url s)%string.
Proof. intros H. cbn [Py.replace_from]. now rewrite H. Qed.

Lemma replace_from_copy (c : ascii) (s : string) :
  String.prefix name (String c s) = false ->
  Py.replace_from 0 name url (String c s)
  = String c (Py.replace_from 0 name url s).
Proof. intros H. cbn [Py.replace_from]. now rewrite H. Qed.

(** Whether a text starts with [t] is not changed by the replacement, when
    neither [name] nor [url] can start inside [t]. *)
Lemma prefix_after_replace (t : string) :
  forall s,
    clash name t = false ->
    clash url t = false ->
    String.prefix t (Py.replace_from 0 name url s) = String.prefix t s.
Proof.
  induction t as [|d t IH]; intros s Cn Cu.
  - now rewrite !prefix_empty.
  - apply clash_cons in Cn as [Kn Cn]. apply clash_cons in Cu as [Ku Cu].
    destruct s as [|c s]; [reflexivity|].
    destruct (String.prefix name (String c s)) eqn:P.
    + rewrite (replace_from_match c s P).
      destruct (String.prefix (String d t) (String c s)) eqn:Q.
      * pose proof (prefix_both_compatible _ _ _ P Q). congruence.
      * destruct (String.prefix (String d t) (url ++ _)) eqn:U; [|reflexivity].
        apply prefix_app_compatible in U. rewrite compatible_sym in U. congruence.
    + rewrite (replace_from_copy c s P), !prefix_cons.
      destruct (Ascii.eqb d c); [now apply IH | reflexivity].
Qed.

(** The same for a whole name [other], tested where [name] does not start. *)
Lemma prefix_other_after_replace (other : string) (c : ascii) (s : string) :
  apart name url other = true ->
  String.prefix other (String c (Py.replace_from 0 name url s))
  = String.prefix other (String c s).
Proof.
  destruct other as [|d t]; [discriminate|]. cbn [apart]. intros A.
  apply andb_true_iff in A as [A _]. apply andb_true_iff in A as [An Au].
  apply negb_true_iff in An, Au. rewrite !prefix_cons.
  destruct (Ascii.eqb d c); [now apply prefix_after_replace | reflexivity].
Qed.

(** No [other] is found in a text that starts with [url], before the end of
    [url]. *)
Lemma prefix_inside_url (other v X : string) :
  clash other v = false ->
  forall c v', v = String c v' -> String.prefix other (v ++ X) = false.
Proof.
  intros C c v' ->. apply clash_cons in C as [K _].
  destruct (String.prefix other (String c v' ++ X)) eqn:P; [|reflexivity].
  apply prefix_app_compatible in P. congruence.
Qed.

Lemma contains_over_url (other : string) (v : string) :
  forall X, clash other v = false ->
            Py.contains other (v ++ X) = Py.contains other X.
Proof.
  induction v as [|c v IH]; intros X C; [reflexivity|].
  cbn [append Py.contains].
  change (String c (v ++ X)) with (String c v ++ X)%string.
  rewrite (prefix_inside_url other (String c v) X C c v eq_refl). cbn [orb].
  apply clash_cons in C as [_ C]. now apply IH.
Qed.

Lemma contains_tail (other : string) (c : ascii) (s : string) :
  Py.contains other (String c s) = false ->
  String.prefix other (String c s) = false /\ Py.contains other s = false.
Proof. cbn [Py.contains]. apply orb_false_iff. Qed.

(** A name that is not in a text is not in it after the replacement. *)
Lemma absent_after_replace (other : string) :
  apart name url other = true ->
  forall s k,
    Py.contains other s = false ->
    Py.contains other (Py.replace_from k name url s) = false.
Proof.
  intros A. assert (A' := A).
  destruct other as [|d t]; [discriminate|]. cbn [apart] in A'.
  apply andb_true_iff in A' as [_ Cu]. apply negb_true_iff in Cu.
  induction s as [|c s IH]; intros k H.
  - destruct k; reflexivity.
  - destruct (contains_tail _ c s H) as [P H'].
    destruct k as [|k]; [|now apply IH].
    destruct (String.prefix name (String c s)) eqn:Pn.
    + rewrite (replace_from_match c s Pn), contains_over_url by exact Cu.
      now apply IH.
    + rewrite (replace_from_copy c s Pn). cbn [Py.contains].
      rewrite (prefix_other_after_replace (String d t) c s A), P. cbn [orb].
      now apply IH.
Qed.

End OneReplacement.

Section OnePass.

Variables name url : string.
Variable table : list (string * string).
Hypothesis name_truthy : Py.truthy name = true.
Hypothesis table_apart :
  forallb (fun entry => apart name url (fst entry)) table = true.

Lemma apart_entry (m um : string) :
  In (m, um) table ->
  exists d t, m = String d t
              /\ clash name t = false /\ clash url t = false
              /\ clash m url = false.
Proof.
  intros I. rewrite forallb_forall in table_apart.
  specialize (table_apart _ I). cbn [fst] in table_apart.
  destruct m as [|d t]; [discriminate|]. cbn [apart] in table_apart.
  apply andb_true_iff in table_apart as [A Cu].
  apply andb_true_iff in A as [An Au].
  apply negb_true_iff in An, Au, Cu. now exists d, t.
Qed.

Lemma first_match_some (entries : list (string * string)) (s m um : string) :
  first_match entries s = Some (m, um) ->
  In (m, um) entries /\ String.prefix m s = true.
Proof.
  induction entries as [|[n0 u0] entries IH]; cbn [first_match]; [discriminate|].
  destruct (String.prefix n0 s) eqn:P.
  - intros [= <- <-]. split; [now left | exact P].
  - intros H. destruct (IH H). split; [now right | assumption].
Qed.

(** The search for the names of the table gives the same at a place where
    [name] does not start, before and after the replacement of [name]. *)
Lemma first_match_after_replace (c : ascii) (s : string) :
  first_match table (String c (Py.replace_from 0 name url s))
  = first_match table (String c s).
Proof.
  revert table_apart. clear. induction table as [|[m um] entries IH];
    cbn [first_match forallb fst]; intros A; [reflexivity|].
  apply andb_true_iff in A as [Am A].
  rewrite (prefix_other_after_replace name url m c s Am).
  destruct (String.prefix m (String c s)); [reflexivity | now apply IH].
Qed.

Lemma first_match_inside_url (c : ascii) (v X : string) :
  (forall m um, In (m, um) table -> clash m (String c v) = false) ->
  first_match table (String c v ++ X) = None.
Proof.
  clear. induction table as [|[m um] entries IH]; intros C; [reflexivity|].
  cbn [first_match].
  rewrite (prefix_inside_url m (String c v) X (C m um (or_introl eq_refl)) c v eq_refl).
  apply IH. intros m' um' I. apply (C m' um'). now right.
Qed.

(** The pass copies a link just inserted. *)
Lemma link_pass_over_url (v : string) :
  forall X,
    (forall m um, In (m, um) table -> clash m v = false) ->
    link_pass 0 table (v ++ X) = (v ++ link_pass 0 table X)%string.
Proof.
  clear. induction v as [|c v IH]; intros X C; [reflexivity|].
  cbn [append link_pass].
  change (String c (v ++ X)) with (String c v ++ X)%string.
  rewrite (first_match_inside_url c v X C). f_equal. apply IH.
  intros m um I. specialize (C m um I). now apply clash_cons in C.
Qed.

(** The pass for the names of the table, after the replacement of [name],
    is the pass for [name] and the names of the table. *)
Lemma pass_after_replace (s : string) :
  (forall j,
      link_pass 0 table (Py.replace_from j name url s)
      = link_pass j ((name, url) :: table) s)
  /\ (forall t,
        String.prefix t s = true ->
        clash name t = false ->
        link_pass (String.length t) table (Py.replace_from 0 name url s)
        = link_pass (String.length t) ((name, url) :: table) s).
Proof.
  induction s as [|c s [IHA IHB]].
  - split.
    + intros j. destruct j; reflexivity.
    + intros t P _. destruct t; [reflexivity | discriminate].
  - assert (A : forall j,
               link_pass 0 table (Py.replace_from j name url (String c s))
               = link_pass j ((name, url) :: table) (String c s)).
    { intros [|j]; [|apply IHA].
      destruct (String.prefix name (String c s)) eqn:P.
      - rewrite (replace_from_match name url c s P).
        rewrite link_pass_over_url.
        + cbn [link_pass first_match]. rewrite P. f_equal. apply IHA.
        + intros m um I. now destruct (apart_entry m um I) as (d & t & _ & _ & _ & C).
      - rewrite (replace_from_copy name url c s P).
        cbn [link_pass first_match]. rewrite P, first_match_after_replace.
        destruct (first_match table (String c s)) as [[m um]|] eqn:F.
        + destruct (first_match_some table _ m um F) as [I Pm].
          destruct (apart_entry m um I) as (d & t & -> & Cn & _ & _).
          rewrite prefix_cons in Pm.
          destruct (Ascii.eqb d c); [|discriminate]. f_equal.
          replace (String.length (String d t) - 1) with (String.length t)
            by (cbn [String.length]; lia).
          now apply IHB.
        + f_equal. apply IHA. }
    split; [exact A|].
    intros t P C. destruct t as [|d t]; [apply (A 0)|].
    apply clash_cons in C as [K C]. rewrite prefix_cons in P.
    destruct (Ascii.eqb d c) eqn:E; [|discriminate].
    apply Ascii.eqb_eq in E. subst d.
    assert (Pn : String.prefix name (String c s) = false).
    { destruct (String.prefix name (String c s)) eqn:Pn; [|reflexivity].
      assert (Q : String.prefix (String c t) (String c s) = true)
        by now rewrite prefix_cons, Ascii.eqb_refl.
      pose proof (prefix_both_compatible _ _ _ Pn Q). congruence. }
    rewrite (replace_from_copy name url c s Pn).
    cbn [String.length link_pass]. now apply IHB.
Qed.

End OnePass.

Section IntactLinks.

Lemma link_pass_nil (s : string) : link_pass 0 [] s = s.
Proof. induction s as [|c s IH]; [reflexivity|]. cbn. now rewrite IH. Qed.

(** In a table whose entries are apart, replacing the names one after the
    other, as the program does, is replacing them in one pass. *)
Lemma link_types_in_pass (table : list (string * string)) :
  links_apart table = true ->
  forall s, link_types_in table s = link_pass 0 table s.
Proof.
  induction table as [|[name url] table IH]; intros A s.
  - cbn [link_types_in]. now rewrite link_pass_nil.
  - cbn [links_apart] in A. apply andb_true_iff in A as [A At].
    apply andb_true_iff in A as [Tn Ap]. cbn [link_types_in].
    assert (E : (if Py.contains name s then Py.replace name url s else s)
                = Py.replace name url s).
    { destruct (Py.contains name s) eqn:C; [reflexivity|].
      symmetry. now apply replace_absent. }
    rewrite E, (IH At). unfold Py.replace.
    exact (proj1 (pass_after_replace name url table Ap s) 0).
Qed.

Lemma first_match_filter (keep : string * string -> bool)
    (table : list (string * string)) (s : string) :
  (forall entry, In entry table -> keep entry = false ->
                 String.prefix (fst entry) s = false) ->
  first_match (filter keep table) s = first_match table s.
Proof.
  induction table as [|[m um] table IH]; intros H; [reflexivity|].
  cbn [filter first_match]. destruct (keep (m, um)) eqn:K.
  - cbn [first_match]. destruct (String.prefix m s); [reflexivity|].
    apply IH. intros entry I. apply H. now right.
  - pose proof (H (m, um) (or_introl eq_refl) K) as P. cbn [fst] in P.
    rewrite P. apply IH. intros entry I. apply H. now right.
Qed.

(** The names that are not in a text play no part in the pass over it. *)
Lemma link_pass_filter (keep : string * string -> bool)
    (table : list (string * string)) (s : string) :
  (forall entry, In entry table -> keep entry = false ->
                 Py.contains (fst entry) s = false) ->
  forall j, link_pass j (filter keep table) s = link_pass j table s.
Proof.
  induction s as [|c s IH]; intros H j; [reflexivity|].
  assert (Hs : forall entry, In entry table -> keep entry = false ->
                             Py.contains (fst entry) s = false).
  { intros entry I K. now destruct (contains_tail _ c s (H entry I K)). }
  destruct j as [|j]; cbn [link_pass]; [|now apply IH].
  rewrite first_match_filter.
  - destruct (first_match table (String c s)) as [[m um]|];
      now rewrite (IH Hs).
  - intros entry I K. now destruct (contains_tail _ c s (H entry I K)).
Qed.

Lemma link_types_in_cons (name url : string) (table : list (string * string))
    (s : string) :
  link_types_in ((name, url) :: table) s
  = link_types_in table (Py.replace name url s).
Proof.
  cbn [link_types_in]. destruct (Py.contains name s) eqn:C; [reflexivity|].
  now rewrite (replace_absent name url s C).
Qed.

Lemma link_types_in_skip (name url : string) (table : list (string * string))
    (s : string) :
  Py.contains name s = false ->
  link_types_in ((name, url) :: table) s = link_types_in table s.
Proof. intros C. cbn [link_types_in]. now rewrite C. Qed.

(** On a text with no "str" and no "int", the program replaces the type
    names by their links in one pass: the links are inserted intact. *)
Lemma link_types_intact (text : string) :
  Py.contains "str" text = false ->
  Py.contains "int" text = false ->
  link_types text = link_names text.
Proof.
  intros S I. unfold link_names.
  rewrite <- (link_pass_filter
                (fun entry => negb (String.eqb (fst entry) "str")
                              && negb (String.eqb (fst entry) "int"))
                type_url text).
  - change (filter _ type_url) with sound_type_url.
    rewrite <- (link_types_in_pass sound_type_url eq_refl).
    assert (Es : sound_type_url = hd ("", "") type_url :: skipn 3 type_url)
      by reflexivity.
    rewrite Es. unfold link_types, type_url. cbn [hd skipn].
    rewrite (link_types_in_cons "bool").
    rewrite (link_types_in_skip "str")
      by (unfold Py.replace; apply absent_after_replace; [reflexivity | exact S]).
    rewrite (link_types_in_skip "int")
      by (unfold Py.replace; apply absent_after_replace; [reflexivity | exact I]).
    symmetry. apply link_types_in_cons.
  - intros [m um] In K. cbn [fst] in *.
    apply andb_false_iff in K as [K|K]; apply negb_false_iff in K;
      apply String.eqb_eq in K; now subst m.
Qed.

End IntactLinks.

(** C2, as the program has it. Parameter directive: outside a code block, a
    line whose left-stripped text starts with ":param" yields exactly one
    output line, and that line starts with the bullet "-".  When the line,
    with the marker replaced, holds neither "str" nor "int", the output line
    is the line with every ":param" replaced by "-" (the word "param" is not
    kept) and the type names replaced by their documentation links, intact,
    the whole left-stripped.  The line ":param x: a bool value" becomes
    "- x: a [bool](...) value": one substitution, that of "bool" by its link,
    and the rest unchanged.  (What the links look like on a line that holds
    "str" or "int" is left out here.) *)
Theorem param_directive :
  (forall shiftlevel st line,
      is_code st = false ->
      Py.startswith ":param" (Py.lstrip line) = true ->
      exists out,
        step shiftlevel st line = Ok (emit st [out])
        /\ Py.startswith "-" out = true
        /\ (Py.contains "str" (Py.replace ":param" "-" line) = false ->
            Py.contains "int" (Py.replace ":param" "-" line) = false ->
            out = Py.lstrip (link_names (Py.replace ":param" "-" line))))
  /\ Py.replace ":param" "-" ":param x: a bool value" = "- x: a bool value"
  /\ link_names "- x: a bool value"
     = ("- x: a "
        ++ "[bool](https://docs.python.org/2/library/stdtypes.html#boolean-values)"
        ++ " value")%string
  /\ _doc2md [":param x: a bool value"] 0
     = Ok ["- x: a [bool](https://docs.python.org/2/library/stdtypes.html#boolean-values) value";
           ""].
Proof.
  split; [|repeat split; reflexivity].
  intros shiftlevel st line C P.
  exists (Py.lstrip (link_types (Py.replace ":param" "-" line))).
  split; [now apply step_param|]. split.
  - pose proof (prefix_append ":param" (Py.lstrip line) P) as E.
    rewrite (bullet_shape "param" "-" line _ E);
      [apply prefix_self_append | | reflexivity].
    repeat constructor.
  - intros S I. now rewrite (link_types_intact _ S I).
Qed.

Lemma param_directive_witness :
  exists out,
    step 0 initial "  :param flag: a bool, a float or a list"
    = Ok (emit initial [out])
    /\ Py.startswith "-" out = true
    /\ out = Py.lstrip (link_names (Py.replace ":param" "-"
                                      "  :param flag: a bool, a float or a list")).
Proof.
  destruct (proj1 param_directive 0%Z initial
              "  :param flag: a bool, a float or a list" eq_refl eq_refl)
    as (out & S & B & E).
  exists out. split; [exact S|]. split; [exact B|]. apply E; reflexivity.
Defined.
